(** * FaceSense front end: the attendance capture session of [src/App.jsx]

    A shallow embedding of the transport client [api] and of the handlers of
    the [AttendCapture] component ([stopStream], [startSession],
    [streamFrames], [captureFrame], [completeSession], [manualPresent]).

    The handlers are [async] functions.  Each one is embedded as a
    computation in a state-and-exception monad over a [World]: the React
    state of the component, its two refs, the media streams handed out by
    the platform, the floating promises it has started and the log of the
    platform calls made so far.  What the platform answers (camera, video
    element, network, canvas) is not decided by the program: every handler
    takes these answers as an explicit environment, and the theorems
    quantify over it. *)

From Stdlib Require Import String Ascii List Arith Bool Lia DecimalString.
From stdpp Require Import base list strings gmap.
Import ListNotations.
Open Scope string_scope.
Open Scope list_scope.

Set Warnings "-register-all".

(** ** JavaScript values and promise settlements *)

(** The values that travel through the capture code: what [res.json()] can
    produce, plus [undefined] (a destructured property that is absent). *)
Inductive JsVal : Type :=
| JUndefined
| JNull
| JBool (b : bool)
| JNum (n : nat)
| JStr (s : string)
| JArr (items : list JsVal)
| JObj (fields : list (string * JsVal)).

(** A thrown value: [name] is the constructor ("Error", "TypeError", a
    DOMException name, ...), [message] its message. *)
Record Exn : Type := mkExn { name : string; message : string }.

(** [new Error(msg)] *)
Definition Error (msg : string) : Exn := mkExn "Error" msg.

(** How a platform promise settles. *)
Inductive Settled (A : Type) : Type :=
| Resolved (a : A)
| Rejected (e : Exn).
Arguments Resolved {A} a.
Arguments Rejected {A} e.

(** JavaScript truthiness of a string. *)
Definition truthy_str (s : string) : bool :=
  match s with EmptyString => false | String _ _ => true end.

(** [a || b] on strings. *)
Definition or_str (a b : string) : string := if truthy_str a then a else b.

(** [String.prototype.includes] *)
Fixpoint includes (s needle : string) : bool :=
  if String.prefix needle s then true
  else match s with
       | EmptyString => false
       | String _ rest => includes rest needle
       end.

(** The decimal rendering of a number inside a template literal. *)
Definition decimal (n : nat) : string := NilEmpty.string_of_uint (Nat.to_uint n).

(** Property lookup on an object, given as its own properties in order
    (each key once). *)
Fixpoint get_field (k : string) (fields : list (string * JsVal)) : JsVal :=
  match fields with
  | [] => JUndefined
  | (k', v) :: rest => if String.eqb k k' then v else get_field k rest
  end.

(** ** HTTP requests and responses *)

(** A [fetch] response, as far as [api] looks at it.  [text] and [json] are
    the settlements of [res.text()] and [res.json()]. *)
Record Response : Type := mkResponse {
  status : nat;
  content_type : option string;       (* res.headers.get("content-type") *)
  text : Settled string;
  json : Settled JsVal
}.

(** [res.ok]: the status is in the range 200-299. *)
Definition ok (res : Response) : bool :=
  (200 <=? status res)%nat && (status res <=? 299)%nat.

(** What [fetch] does with a request: it rejects (network failure) or it
    resolves with a response, whatever its status. *)
Inductive FetchOutcome : Type :=
| NetworkError (e : Exn)
| Responded (res : Response).

(** The [body] option of [api]. *)
Inductive ReqBody : Type :=
| FormData (entries : list (string * string))
| Plain (v : JsVal).

(** The second argument of [api], with its defaults. *)
Record ApiOpts : Type := mkOpts {
  method : string;
  body : option ReqBody;
  token : option string;
  headers : list (string * option string)
}.

Definition GET (tok : option string) : ApiOpts :=
  {| method := "GET"; body := None; token := tok; headers := [] |}.

Definition POST (tok : option string) (b : option ReqBody) : ApiOpts :=
  {| method := "POST"; body := b; token := tok; headers := [] |}.

(** What is handed to [fetch]. *)
Inductive Payload : Type :=
| SendForm (entries : list (string * string))   (* the FormData itself *)
| SendJson (v : JsVal).                         (* JSON.stringify(body) *)

Record Request : Type := mkRequest {
  url : string;
  req_method : string;
  req_headers : list (string * option string);
  req_body : option Payload;
  credentials : string
}.

(** Truthiness of a [body] that is not a FormData. *)
Definition truthy_val (v : JsVal) : bool :=
  match v with
  | JUndefined | JNull | JBool false | JNum 0 | JStr EmptyString => false
  | _ => true
  end.

(** The request [api] builds (lines 38-47). *)
Definition build_request (base path : string) (o : ApiOpts) : Request :=
  {| url := base +:+ path;
     req_method := method o;
     req_headers :=
       [("Content-Type",
         match body o with
         | Some (FormData _) => None
         | _ => Some "application/json"
         end)]
       ++ (match token o with
           | Some t => if truthy_str t then [("Authorization", Some ("Bearer " +:+ t))] else []
           | None => []
           end)
       ++ headers o;
     req_body :=
       match body o with
       | Some (FormData f) => Some (SendForm f)
       | Some (Plain v) => if truthy_val v then Some (SendJson v) else None
       | None => None
       end;
     credentials := "include" |}.

(** What [api] resolves with. *)
Inductive ApiValue : Type :=
| ACsv (res : Response)       (* the response itself, for the caller to download *)
| AJson (v : JsVal)
| AText (s : string).

(** ** The component and its platform *)

Inductive TrackState : Type := Live | Ended.

(** A media stream: the ready state of each of its tracks. *)
Definition MediaStream : Type := list TrackState.

(** The [<video>] element behind [videoRef]. *)
Record Video : Type := mkVideo {
  srcObject : option nat;     (* index of the attached stream *)
  videoWidth : nat;
  videoHeight : nat
}.

(** The [<canvas>] element behind [canvasRef]. *)
Record Canvas : Type := mkCanvas { width : nat; height : nat }.

(** A promise started and not awaited. *)
Inductive Task : Type :=
| TStreamFrames (sid : JsVal).

(** Calls to the platform, in the order they are made. *)
Inductive Event : Type :=
| EGetUserMedia (w h : nat)
| EPlay
| EFetch (req : Request)
| EDrawImage (w h : nat)
| EStrokeGuide (w h : nat)    (* strokeRect of the centred 60% rectangle on a w*h canvas *)
| EToDataURL (mime : string)
| ESetTimeout (ms : nat)
| EStopTracks (stream : nat).

Record World : Type := mkWorld {
  API_BASE : string;                  (* module constant *)
  auth_token : option string;         (* useAuth().token *)
  (* useState *)
  sessionId : JsVal;
  st_status : string;
  result : option ApiValue;
  streaming : bool;
  (* useRef *)
  videoRef : option Video;            (* videoRef.current *)
  canvasRef : option Canvas;          (* canvasRef.current *)
  (* platform *)
  streams : list MediaStream;
  tasks : list Task;
  trace : list Event
}.

(** ** The monad of handlers *)

Inductive Completion (A : Type) : Type :=
| Normal (a : A)
| Throw (e : Exn).
Arguments Normal {A} a.
Arguments Throw {A} e.

Definition Async (A : Type) : Type := World -> Completion A * World.

Definition ret {A} (a : A) : Async A := fun w => (Normal a, w).

Definition throw {A} (e : Exn) : Async A := fun w => (Throw e, w).

Definition bind {A B} (m : Async A) (k : A -> Async B) : Async B :=
  fun w =>
    match m w with
    | (Normal a, w') => k a w'
    | (Throw e, w') => (Throw e, w')
    end.

Declare Scope async_scope.
Delimit Scope async_scope with async.
Bind Scope async_scope with Async.
Notation "x <- m ;; k" := (bind m (fun x => k))
  (at level 100, m at next level, k at level 200, right associativity) : async_scope.
Notation "m ;; k" := (bind m (fun _ => k))
  (at level 100, k at level 200, right associativity) : async_scope.
Open Scope async_scope.

(** [try { body } catch (e) { handler }] *)
Definition try_catch {A} (body : Async A) (handler : Exn -> Async A) : Async A :=
  fun w =>
    match body w with
    | (Normal a, w') => (Normal a, w')
    | (Throw e, w') => handler e w'
    end.

(** [... finally { fin }]: [fin] runs on both completions; if it throws,
    its exception replaces the completion of the block. *)
Definition finally {A} (block : Async A) (fin : Async unit) : Async A :=
  fun w =>
    match block w with
    | (c, w') =>
        match fin w' with
        | (Normal _, w'') => (c, w'')
        | (Throw e, w'') => (Throw e, w'')
        end
    end.

(** [await p] for a promise whose settlement is known. *)
Definition await {A} (p : Settled A) : Async A :=
  match p with
  | Resolved a => ret a
  | Rejected e => throw e
  end.

(** A computation that does not touch the world. *)
Definition lift {A} (c : Completion A) : Async A := fun w => (c, w).

Definition settle {A} (p : Settled A) : Completion A :=
  match p with
  | Resolved a => Normal a
  | Rejected e => Throw e
  end.

Definition and_then {A B} (c : Completion A) (k : A -> Completion B) : Completion B :=
  match c with
  | Normal a => k a
  | Throw e => Throw e
  end.

Definition gets {A} (f : World -> A) : Async A := fun w => (Normal (f w), w).

Definition modify (f : World -> World) : Async unit := fun w => (Normal tt, f w).

(** The world a computation leaves behind, and how it completes. *)
Definition exec {A} (m : Async A) (w : World) : World := snd (m w).
Definition completion {A} (m : Async A) (w : World) : Completion A := fst (m w).

(** ** State setters *)

Definition set_sessionId (v : JsVal) (w : World) : World :=
  {| API_BASE := API_BASE w; auth_token := auth_token w; sessionId := v;
     st_status := st_status w; result := result w; streaming := streaming w;
     videoRef := videoRef w; canvasRef := canvasRef w; streams := streams w;
     tasks := tasks w; trace := trace w |}.

Definition set_status (s : string) (w : World) : World :=
  {| API_BASE := API_BASE w; auth_token := auth_token w; sessionId := sessionId w;
     st_status := s; result := result w; streaming := streaming w;
     videoRef := videoRef w; canvasRef := canvasRef w; streams := streams w;
     tasks := tasks w; trace := trace w |}.

Definition set_result (r : option ApiValue) (w : World) : World :=
  {| API_BASE := API_BASE w; auth_token := auth_token w; sessionId := sessionId w;
     st_status := st_status w; result := r; streaming := streaming w;
     videoRef := videoRef w; canvasRef := canvasRef w; streams := streams w;
     tasks := tasks w; trace := trace w |}.

Definition set_streaming (b : bool) (w : World) : World :=
  {| API_BASE := API_BASE w; auth_token := auth_token w; sessionId := sessionId w;
     st_status := st_status w; result := result w; streaming := b;
     videoRef := videoRef w; canvasRef := canvasRef w; streams := streams w;
     tasks := tasks w; trace := trace w |}.

Definition set_videoRef (v : option Video) (w : World) : World :=
  {| API_BASE := API_BASE w; auth_token := auth_token w; sessionId := sessionId w;
     st_status := st_status w; result := result w; streaming := streaming w;
     videoRef := v; canvasRef := canvasRef w; streams := streams w;
     tasks := tasks w; trace := trace w |}.

Definition set_canvasRef (c : option Canvas) (w : World) : World :=
  {| API_BASE := API_BASE w; auth_token := auth_token w; sessionId := sessionId w;
     st_status := st_status w; result := result w; streaming := streaming w;
     videoRef := videoRef w; canvasRef := c; streams := streams w;
     tasks := tasks w; trace := trace w |}.

Definition set_streams (l : list MediaStream) (w : World) : World :=
  {| API_BASE := API_BASE w; auth_token := auth_token w; sessionId := sessionId w;
     st_status := st_status w; result := result w; streaming := streaming w;
     videoRef := videoRef w; canvasRef := canvasRef w; streams := l;
     tasks := tasks w; trace := trace w |}.

Definition set_tasks (l : list Task) (w : World) : World :=
  {| API_BASE := API_BASE w; auth_token := auth_token w; sessionId := sessionId w;
     st_status := st_status w; result := result w; streaming := streaming w;
     videoRef := videoRef w; canvasRef := canvasRef w; streams := streams w;
     tasks := l; trace := trace w |}.

Definition set_trace (l : list Event) (w : World) : World :=
  {| API_BASE := API_BASE w; auth_token := auth_token w; sessionId := sessionId w;
     st_status := st_status w; result := result w; streaming := streaming w;
     videoRef := videoRef w; canvasRef := canvasRef w; streams := streams w;
     tasks := tasks w; trace := l |}.

Definition setSessionId (v : JsVal) : Async unit := modify (set_sessionId v).
Definition setStatus (s : string) : Async unit := modify (set_status s).
Definition setResult (r : option ApiValue) : Async unit := modify (set_result r).
Definition setStreaming (b : bool) : Async unit := modify (set_streaming b).

(** Record a platform call. *)
Definition emit (e : Event) : Async unit :=
  modify (fun w => set_trace (trace w ++ [e]) w).

(** Start a promise without awaiting it. *)
Definition spawn (t : Task) : Async unit :=
  modify (fun w => set_tasks (tasks w ++ [t]) w).

(** ** The transport client (lines 37-56) *)

(** [await fetch(...)] with the platform's answer [net]. *)
Definition fetch (req : Request) (net : FetchOutcome) : Async Response :=
  emit (EFetch req) ;;
  match net with
  | NetworkError e => throw e
  | Responded res => ret res
  end.

(** Lines 48-55: what [api] makes of a response.  These lines touch
    nothing of the component, so they are a function of the response
    alone; [settle] is the [await] of [res.text()] and [res.json()]. *)
Definition read_response (res : Response) : Completion ApiValue :=
  if negb (ok res) then
    and_then (settle (text res)) (fun txt =>
    Throw (Error (or_str txt ("Request failed: " +:+ decimal (status res)))))
  else
    let contentType := match content_type res with
                       | Some c => or_str c ""
                       | None => ""
                       end in
    if includes contentType "text/csv" then Normal (ACsv res)
    else if includes contentType "application/json" then
      and_then (settle (json res)) (fun v => Normal (AJson v))
    else
      and_then (settle (text res)) (fun s => Normal (AText s)).

Definition api (path : string) (o : ApiOpts) (net : FetchOutcome) : Async ApiValue :=
  base <- gets API_BASE ;;
  res <- fetch (build_request base path o) net ;;
  lift (read_response res).

(** How a call of [api] completes, given the platform's answer. *)
Definition api_outcome (net : FetchOutcome) : Completion ApiValue :=
  match net with
  | NetworkError e => Throw e
  | Responded res => read_response res
  end.

(** ** The capture component (lines 262-352) *)

(** What the platform answers during one capture attempt. *)
Record Env : Type := mkEnv {
  camera : Settled nat;               (* getUserMedia: a stream with that many tracks *)
  played : Settled unit;              (* video.play() *)
  started : FetchOutcome;             (* POST /api/attendance/start *)
  snapshot : nat -> Settled string;   (* canvas calls of iteration i, ending in toDataURL *)
  sent : nat -> FetchOutcome;         (* POST /api/attendance/frame of iteration i *)
  completed : FetchOutcome            (* POST /api/attendance/complete *)
}.

(** [stream.getTracks().forEach(t => t.stop())] *)
Definition stop_tracks (ms : MediaStream) : MediaStream := map (fun _ => Ended) ms.

(** Lines 275-279. *)
Definition stopStream : Async unit :=
  v <- gets videoRef ;;
  (match v with
   | Some video =>
       match srcObject video with
       | Some id =>
           emit (EStopTracks id) ;;
           modify (fun w => set_streams (alter stop_tracks id (streams w)) w)
       | None => ret tt
       end
   | None => ret tt
   end) ;;
  setStreaming false.

(** [navigator.mediaDevices.getUserMedia({ video: { width, height } })]:
    a granted stream is new, with all its tracks live. *)
Definition getUserMedia (w h : nat) (cam : Settled nat) : Async nat :=
  emit (EGetUserMedia w h) ;;
  n <- await cam ;;
  id <- gets (fun wd => length (streams wd)) ;;
  modify (fun wd => set_streams (streams wd ++ [repeat Live n]) wd) ;;
  ret id.

(** Lines 286-289. *)
Definition attach_and_play (media : nat) (p : Settled unit) : Async unit :=
  v <- gets videoRef ;;
  match v with
  | Some video =>
      modify (set_videoRef
                (Some {| srcObject := Some media;
                         videoWidth := videoWidth video;
                         videoHeight := videoHeight video |})) ;;
      emit EPlay ;;
      await p
  | None => ret tt
  end.

(** [const { sessionId } = value]: destructuring [null] throws; a value
    without that property gives [undefined]. *)
Definition destructure_sessionId (data : ApiValue) : Completion JsVal :=
  match data with
  | AJson JNull => Throw (mkExn "TypeError" "Cannot destructure property 'sessionId' of null")
  | AJson (JObj fields) => Normal (get_field "sessionId" fields)
  | _ => Normal JUndefined
  end.

(** Lines 281-298. *)
Definition startSession (env : Env) : Async unit :=
  setResult None ;;
  setStatus "Starting session..." ;;
  try_catch
    (media <- getUserMedia 640 480 (camera env) ;;
     attach_and_play media (played env) ;;
     setStreaming true ;;
     tok <- gets auth_token ;;
     data <- api "/api/attendance/start" (POST tok None) (started env) ;;
     sid <- lift (destructure_sessionId data) ;;
     setSessionId sid ;;
     setStatus "Streaming frames..." ;;
     spawn (TStreamFrames sid))
    (fun _ => setStatus "Camera permission denied or unavailable").

(** [a || b] on numbers. *)
Definition or_num (a b : nat) : nat := match a with 0 => b | _ => a end.

(** Lines 312-328.  Without the video or the canvas element the result is
    [null]; otherwise the canvas takes the size of the video frame, the
    frame and the guide rectangle are drawn, and the canvas is encoded. *)
Definition captureFrame (shot : Settled string) : Async JsVal :=
  video <- gets videoRef ;;
  canvas <- gets canvasRef ;;
  match video, canvas with
  | Some v, Some _ =>
      let cw := or_num (videoWidth v) 640 in
      let ch := or_num (videoHeight v) 480 in
      modify (set_canvasRef (Some {| width := cw; height := ch |})) ;;
      emit (EDrawImage cw ch) ;;
      emit (EStrokeGuide cw ch) ;;
      emit (EToDataURL "image/jpeg") ;;
      img <- await shot ;;
      ret (JStr img)
  | _, _ => ret JNull
  end.

(** Lines 330-341. *)
Definition completeSession (env : Env) (sid : JsVal) : Async unit :=
  finally
    (try_catch
       (tok <- gets auth_token ;;
        data <- api "/api/attendance/complete"
                    (POST tok (Some (Plain (JObj [("sessionId", sid)])))) (completed env) ;;
        setResult (Some data) ;;
        setStatus "Completed")
       (fun _ => setStatus "No face detected. You can use Manual Present."))
    (stopStream ;;
     setSessionId JNull).

(** One iteration of the loop of [streamFrames] (lines 303-307). *)
Definition frame_step (env : Env) (sid : JsVal) (i : nat) : Async unit :=
  img <- captureFrame (snapshot env i) ;;
  try_catch
    (tok <- gets auth_token ;;
     api "/api/attendance/frame"
         (POST tok (Some (Plain (JObj [("sessionId", sid); ("imageBase64", img)]))))
         (sent env i) ;;
     ret tt)
    (fun _ => ret tt) ;;
  emit (ESetTimeout 100).

(** [for (let i = ...; i < frames; i++)] with [n] iterations left. *)
Fixpoint frames_loop (env : Env) (sid : JsVal) (n i : nat) : Async unit :=
  match n with
  | 0 => ret tt
  | S n' => frame_step env sid i ;; frames_loop env sid n' (S i)
  end.

Definition frames : nat := 20.

(** Lines 300-310. *)
Definition streamFrames (env : Env) (sid : JsVal) : Async unit :=
  frames_loop env sid frames 0 ;;
  completeSession env sid.


(** ** The buttons and the floating promises (lines 366-371) *)

(** [<button onClick={startSession} disabled={streaming}>]: a disabled
    button fires no click. *)
Definition click_start (env : Env) (w : World) : World :=
  if streaming w then w else exec (startSession env) w.


Definition run_task (env : Env) (t : Task) : Async unit :=
  match t with
  | TStreamFrames sid => streamFrames env sid
  end.

(** The promises started so far run to their end; a rejection of one of
    them is unhandled and leaves the world as it is at that point. *)
Definition drain (env : Env) (w : World) : World :=
  fold_left (fun w' t => exec (run_task env t) w') (tasks w) (set_tasks [] w).

(** One press of the start button and everything it sets off. *)
Definition attempt (env : Env) (w : World) : World :=
  drain env (click_start env w).

(** The component right after mounting: idle, both elements present, no
    stream attached; a fresh canvas is 300 by 150. *)
Definition mounted (base : string) (tok : option string) : World :=
  {| API_BASE := base; auth_token := tok;
     sessionId := JNull; st_status := "Idle"; result := None; streaming := false;
     videoRef := Some {| srcObject := None; videoWidth := 0; videoHeight := 0 |};
     canvasRef := Some {| width := 300; height := 150 |};
     streams := []; tasks := []; trace := [] |}.

(** ** Vocabulary of the statements *)

(** The world after one more platform call. *)
Definition logged (e : Event) (w : World) : World := set_trace (trace w ++ [e]) w.

(** The requests of the capture component. *)
Definition start_request (w : World) : Request :=
  build_request (API_BASE w) "/api/attendance/start" (POST (auth_token w) None).

Definition frame_request (w : World) (sid img : JsVal) : Request :=
  build_request (API_BASE w) "/api/attendance/frame"
    (POST (auth_token w) (Some (Plain (JObj [("sessionId", sid); ("imageBase64", img)])))).

Definition complete_request (w : World) (sid : JsVal) : Request :=
  build_request (API_BASE w) "/api/attendance/complete"
    (POST (auth_token w) (Some (Plain (JObj [("sessionId", sid)])))).


(** Is this event a request to the endpoint [path]? *)
Definition is_request_to (base path : string) (e : Event) : bool :=
  match e with
  | EFetch req => String.eqb (url req) (base +:+ path)
  | _ => false
  end.


(** The world after the tracks of the attached stream, if any, are stopped. *)
Definition released (w : World) : World :=
  match videoRef w with
  | Some video =>
      match srcObject video with
      | Some id => set_streams (alter stop_tracks id (streams w)) (logged (EStopTracks id) w)
      | None => w
      end
  | None => w
  end.

(** The canvas calls of one [captureFrame], none when an element is missing. *)
Definition capture_events (w : World) : list Event :=
  match videoRef w, canvasRef w with
  | Some v, Some _ =>
      [EDrawImage (or_num (videoWidth v) 640) (or_num (videoHeight v) 480);
       EStrokeGuide (or_num (videoWidth v) 640) (or_num (videoHeight v) 480);
       EToDataURL "image/jpeg"]
  | _, _ => []
  end.

(** What [captureFrame] returns when the canvas yields [shot]. *)
Definition captured (w : World) (shot : string) : JsVal :=
  match videoRef w, canvasRef w with
  | Some _, Some _ => JStr shot
  | _, _ => JNull
  end.

(** The canvas after [captureFrame]. *)
Definition resized (w : World) : World :=
  match videoRef w, canvasRef w with
  | Some v, Some _ =>
      set_canvasRef (Some {| width := or_num (videoWidth v) 640;
                             height := or_num (videoHeight v) 480 |}) w
  | _, _ => w
  end.

(** The image the canvas yields in iteration [k]. *)
Definition shot_of (env : Env) (k : nat) : string :=
  match snapshot env k with
  | Resolved u => u
  | Rejected _ => ""
  end.

(** The platform calls of iteration [k] of the streaming loop: the capture,
    the frame post, the delay. *)
Definition iteration_events (env : Env) (w : World) (sid : JsVal) (k : nat) : list Event :=
  capture_events w
  ++ [EFetch (frame_request w sid (captured w (shot_of env k))); ESetTimeout 100].

(** The platform calls of [stopStream]. *)
Definition release_events (w : World) : list Event :=
  match videoRef w with
  | Some video =>
      match srcObject video with
      | Some id => [EStopTracks id]
      | None => []
      end
  | None => []
  end.


(** A stream is active while one of its tracks is live. *)
Definition is_live (t : TrackState) : bool :=
  match t with Live => true | Ended => false end.

Definition active (ms : MediaStream) : bool := existsb is_live ms.

Definition active_streams (w : World) : nat := length (filter (fun ms => active ms = true) (streams w)).

(** The component is idle and can be started again: the start button is
    enabled, no session handle is held and no camera stream is active. *)
Definition idle (w : World) : Prop :=
  streaming w = false /\ sessionId w = JNull /\ active_streams w = 0.

(** How many events of a log satisfy [p]. *)
Fixpoint count (p : Event -> bool) (l : list Event) : nat :=
  match l with
  | [] => 0
  | e :: rest => (if p e then 1 else 0) + count p rest
  end.

Definition is_timeout (ms : nat) (e : Event) : bool :=
  match e with
  | ESetTimeout n => Nat.eqb n ms
  | _ => false
  end.

(** The same platform, except that the frame posts are answered by [f]. *)
Definition with_sent (f : nat -> FetchOutcome) (env : Env) : Env :=
  {| camera := camera env; played := played env; started := started env;
     snapshot := snapshot env; sent := f; completed := completed env |}.

(** The world in which [startSession] leaves a component whose video
    element is [video], once the camera has granted a stream of [n] tracks,
    the video plays and the backend has answered with the handle [sid]. *)
Definition session_started (w : World) (video : Video) (n : nat) (sid : JsVal) : World :=
  let w1 := logged (EGetUserMedia 640 480) (set_status "Starting session..." (set_result None w)) in
  let w2 := set_streams (streams w ++ [repeat Live n]) w1 in
  let w3 := logged EPlay
              (set_videoRef (Some {| srcObject := Some (length (streams w));
                                     videoWidth := videoWidth video;
                                     videoHeight := videoHeight video |}) w2) in
  let w4 := logged (EFetch (start_request w)) (set_streaming true w3) in
  set_tasks (tasks w ++ [TStreamFrames sid])
    (set_status "Streaming frames..." (set_sessionId sid w4)).

(** The streams after [stopStream]. *)
Definition streams_released (w : World) : list MediaStream :=
  match videoRef w with
  | Some v =>
      match srcObject v with
      | Some id => alter stop_tracks id (streams w)
      | None => streams w
      end
  | None => streams w
  end.

(** Sample responses. *)
Definition internal_error : Response :=
  {| status := 500; content_type := Some "text/html";
     text := Resolved "Server Error (500)"; json := Rejected (mkExn "SyntaxError" "Unexpected token") |}.

Definition empty_error : Response :=
  {| status := 500; content_type := None;
     text := Resolved ""; json := Rejected (mkExn "SyntaxError" "Unexpected end of JSON input") |}.

(** A 200 response with a JSON body (read once, by [res.json()]). *)
Definition json_response (v : JsVal) : Response :=
  {| status := 200; content_type := Some "application/json";
     text := Rejected (mkExn "TypeError" "body stream already read");
     json := Resolved v |}.

(** Sample platforms: one where everything succeeds, and the same one with
    the network dropping every frame post. *)
Definition steady_env : Env :=
  {| camera := Resolved 1;
     played := Resolved tt;
     started := Responded (json_response (JObj [("sessionId", JStr "s-1")]));
     snapshot := fun _ => Resolved "data:image/jpeg;base64,AAAA";
     sent := fun _ => Responded (json_response (JObj [("status", JStr "ok")]));
     completed := Responded (json_response
                    (JObj [("userName", JStr "Alice"); ("emotion", JStr "happy");
                           ("timestamp", JStr "2024-01-01T00:00:00Z")])) |}.

Definition flaky_env : Env :=
  with_sent (fun _ => NetworkError (mkExn "TypeError" "Failed to fetch")) steady_env.

(** The steady platform, except that the completion request is refused. *)
Definition no_face_env : Env :=
  {| camera := camera steady_env; played := played steady_env; started := started steady_env;
     snapshot := snapshot steady_env; sent := sent steady_env;
     completed := Responded internal_error |}.

(** A mounted component, and the same one with a session under way. *)
Definition fresh : World := mounted "http://127.0.0.1:8000" (Some "t0k3n").

Definition capturing : World := set_tasks [] (click_start steady_env fresh).

(** The steady platform, except that the camera is refused. *)
Definition denied_env : Env :=
  {| camera := Rejected (mkExn "NotAllowedError" "Permission denied");
     played := played steady_env; started := started steady_env;
     snapshot := snapshot steady_env; sent := sent steady_env;
     completed := completed steady_env |}.

(** The steady platform, except that the session-start request is refused. *)
Definition start_refused_env : Env :=
  {| camera := camera steady_env; played := played steady_env;
     started := Responded internal_error;
     snapshot := snapshot steady_env; sent := sent steady_env;
     completed := completed steady_env |}.

(** The steady platform, except that [video.play()] rejects. *)
Definition play_blocked_env : Env :=
  {| camera := camera steady_env;
     played := Rejected (mkExn "AbortError" "The play() request was interrupted");
     started := started steady_env;
     snapshot := snapshot steady_env; sent := sent steady_env;
     completed := completed steady_env |}.

(** What the steady backend answers to a completion request. *)
Definition recorded : ApiValue :=
  AJson (JObj [("userName", JStr "Alice"); ("emotion", JStr "happy");
               ("timestamp", JStr "2024-01-01T00:00:00Z")]).

(** The steady platform, except that the backend answers the session-start
    request with a 200 that carries no [sessionId]. *)
Definition handleless_env : Env :=
  {| camera := camera steady_env; played := played steady_env;
     started := Responded (json_response (JObj [("status", JStr "ok")]));
     snapshot := snapshot steady_env; sent := sent steady_env;
     completed := completed steady_env |}.

(** * The rest of the application

    The other components of [src/App.jsx] keep their own React state and
    reach the backend through the same [api].  A handler of such a
    component is a computation over its own state [S] paired with the
    [World], which supplies [API_BASE], the token of [useAuth()] and the
    log of platform calls. *)

Definition Comp (S A : Type) : Type := S * World -> Completion A * (S * World).

Definition cret {S A} (a : A) : Comp S A := fun sw => (Normal a, sw).

Definition cbind {S A B} (m : Comp S A) (k : A -> Comp S B) : Comp S B :=
  fun sw =>
    match m sw with
    | (Normal a, sw') => k a sw'
    | (Throw e, sw') => (Throw e, sw')
    end.

Declare Scope comp_scope.
Delimit Scope comp_scope with comp.
Notation "x <- m ;; k" := (cbind m (fun x => k))
  (at level 100, m at next level, k at level 200, right associativity) : comp_scope.
Notation "m ;; k" := (cbind m (fun _ => k))
  (at level 100, k at level 200, right associativity) : comp_scope.
Open Scope comp_scope.

(** [try { body } catch (e) { handler }], also [p.catch(handler)]. *)
Definition ctry {S A} (body : Comp S A) (handler : Exn -> Comp S A) : Comp S A :=
  fun sw =>
    match body sw with
    | (Normal a, sw') => (Normal a, sw')
    | (Throw e, sw') => handler e sw'
    end.

(** [... finally { fin }], also [p.finally(fin)]. *)
Definition cfinally {S A} (block : Comp S A) (fin : Comp S unit) : Comp S A :=
  fun sw =>
    match block sw with
    | (c, sw') =>
        match fin sw' with
        | (Normal _, sw'') => (c, sw'')
        | (Throw e, sw'') => (Throw e, sw'')
        end
    end.

(** A call that only concerns the platform, such as [api]. *)
Definition io {S A} (m : Async A) : Comp S A :=
  fun sw =>
    match m (snd sw) with
    | (c, w') => (c, (fst sw, w'))
    end.

(** A step that cannot touch anything. *)
Definition clift {S A} (c : Completion A) : Comp S A := fun sw => (c, sw).

Definition get_state {S} : Comp S S := fun sw => (Normal (fst sw), sw).

Definition update {S} (f : S -> S) : Comp S unit := fun sw => (Normal tt, (f (fst sw), snd sw)).

(** A handler of an inner component, run on the part [get] of the state. *)
Definition zoom {S T A} (get : S -> T) (put : T -> S -> S) (m : Comp T A) : Comp S A :=
  fun sw =>
    match m (get (fst sw), snd sw) with
    | (c, tw) => (c, (put (fst tw) (fst sw), snd tw))
    end.

(** The state and the world a handler leaves behind, and how it completes. *)
Definition after {S A} (m : Comp S A) (s : S) (w : World) : S := fst (snd (m (s, w))).
Definition world_after {S A} (m : Comp S A) (s : S) (w : World) : World := snd (snd (m (s, w))).
Definition outcome {S A} (m : Comp S A) (s : S) (w : World) : Completion A := fst (m (s, w)).

(** ** JavaScript conversions used outside the capture card *)

(** [String(v)], which is also what a template literal and
    [localStorage.setItem] make of a value. *)
Fixpoint js_string (v : JsVal) : string :=
  match v with
  | JUndefined => "undefined"
  | JNull => "null"
  | JBool true => "true"
  | JBool false => "false"
  | JNum n => decimal n
  | JStr s => s
  | JArr items =>
      (fix join (l : list JsVal) : string :=
         match l with
         | [] => ""
         | x :: rest =>
             (match x with
              | JUndefined | JNull => ""
              | _ => js_string x
              end)
             +:+ (match rest with
                  | [] => ""
                  | _ :: _ => "," +:+ join rest
                  end)
         end) items
  | JObj _ => "[object Object]"
  end.

(** Truthiness of what [api] resolves with. *)
Definition truthy_api (d : ApiValue) : bool :=
  match d with
  | ACsv _ => true
  | AJson v => truthy_val v
  | AText s => truthy_str s
  end.

(** [d.k]: reading a property of [null] or [undefined] throws; a value
    that is not an object with that key gives [undefined]. *)
Definition prop (k : string) (d : ApiValue) : Completion JsVal :=
  match d with
  | AJson JNull => Throw (mkExn "TypeError" "Cannot read properties of null")
  | AJson JUndefined => Throw (mkExn "TypeError" "Cannot read properties of undefined")
  | AJson (JObj fields) => Normal (get_field k fields)
  | _ => Normal JUndefined
  end.

(** [d?.k] *)
Definition optional_prop (k : string) (d : ApiValue) : JsVal :=
  match d with
  | AJson (JObj fields) => get_field k fields
  | _ => JUndefined
  end.

(** [roles.includes(v)] for an array of strings. *)
Definition array_includes (roles : list string) (v : JsVal) : bool :=
  match v with
  | JStr r => existsb (String.eqb r) roles
  | _ => false
  end.

(** [v === "literal"] *)
Definition is_string (lit : string) (v : JsVal) : bool :=
  match v with
  | JStr s => String.eqb s lit
  | _ => false
  end.

(** [l.slice(-n)] *)
Definition slice_last {A} (n : nat) (l : list A) : list A := drop (length l - n) l.

(** [s.slice(-n)] *)
Definition str_slice_last (n : nat) (s : string) : string :=
  substring (String.length s - n) n s.

(** The options of a DELETE request. *)
Definition DELETE (tok : option string) : ApiOpts :=
  {| method := "DELETE"; body := None; token := tok; headers := [] |}.

(** ** AuthProvider (lines 62-95) and Protected (lines 98-104) *)

Module AuthProvider.

Record State : Type := mkState {
  user : ApiValue;                       (* useState(null) *)
  token : JsVal;                         (* useState(null) *)
  loading : bool;                        (* useState(true) *)
  localStorage : gmap string string      (* outlives the component *)
}.

Definition setUser (u : ApiValue) : Comp State unit :=
  update (fun s => {| user := u; token := token s; loading := loading s;
                      localStorage := localStorage s |}).

Definition setToken (t : JsVal) : Comp State unit :=
  update (fun s => {| user := user s; token := t; loading := loading s;
                      localStorage := localStorage s |}).

Definition setLoading (b : bool) : Comp State unit :=
  update (fun s => {| user := user s; token := token s; loading := b;
                      localStorage := localStorage s |}).

(** [localStorage.setItem(k, v)]; [written] is how the browser takes the
    write: it can refuse it (quota exceeded, storage disabled), and the
    call then throws and stores nothing. *)
Definition setItem (k v : string) (written : Settled unit) : Comp State unit :=
  clift (settle written) ;;
  update (fun s => {| user := user s; token := token s; loading := loading s;
                      localStorage := <[k := v]> (localStorage s) |}).

Definition removeItem (k : string) : Comp State unit :=
  update (fun s => {| user := user s; token := token s; loading := loading s;
                      localStorage := delete k (localStorage s) |}).

(** The provider as it mounts over a given storage. *)
Definition mount (storage : gmap string string) : State :=
  {| user := AJson JNull; token := JNull; loading := true; localStorage := storage |}.

(** The effect of lines 67-78, with the promise chain run to its end. *)
Definition restore (me : FetchOutcome) : Comp State unit :=
  s <- get_state ;;
  match localStorage s !! "fs_token" with
  | Some t =>
      if truthy_str t then
        setToken (JStr t) ;;
        cfinally
          (ctry (u <- io (api "/api/me" (GET (Some t)) me) ;; setUser u)
                (fun _ => removeItem "fs_token" ;; setToken JNull))
          (setLoading false)
      else setLoading false
  | None => setLoading false
  end.

(** Lines 80-85. *)
Definition login (email password : string) (net : FetchOutcome) (written : Settled unit)
  : Comp State unit :=
  data <- io (api "/api/auth/login"
                  (POST None (Some (Plain (JObj [("email", JStr email);
                                                 ("password", JStr password)]))))
                  net) ;;
  u <- clift (prop "user" data) ;;
  setUser (AJson u) ;;
  t <- clift (prop "token" data) ;;
  setToken t ;;
  setItem "fs_token" (js_string t) written.

(** Lines 87-91. *)
Definition logout : Comp State unit :=
  setUser (AJson JNull) ;;
  setToken JNull ;;
  removeItem "fs_token".

End AuthProvider.

(** What a route guard renders. *)
Inductive View : Type :=
| FullScreenSpinner (label : string)
| Navigate (to : string)
| Children.

(** Lines 98-104. *)
Definition Protected (s : AuthProvider.State) (roles : option (list string)) : View :=
  if AuthProvider.loading s then FullScreenSpinner "Loading your session..."
  else if negb (truthy_api (AuthProvider.user s)) then Navigate "/login"
  else match roles with
       | Some rs =>
           if negb (array_includes rs (optional_prop "role" (AuthProvider.user s)))
           then Navigate "/"
           else Children
       | None => Children
       end.

(** Lines 120-122 and 220-224: [user?.role === "Admin"] decides whether
    the Users link and the Manage Users card are rendered. *)
Definition shows_admin_entry (s : AuthProvider.State) : bool :=
  is_string "Admin" (optional_prop "role" (AuthProvider.user s)).

(** ** LoginPage (lines 158-177) *)

Module LoginPage.

Record State : Type := mkState {
  auth : AuthProvider.State;     (* useAuth() *)
  email : string;
  password : string;
  error : string;
  busy : bool;
  visited : list string          (* the calls of nav(...) so far *)
}.

Definition set_auth (a : AuthProvider.State) (s : State) : State :=
  {| auth := a; email := email s; password := password s; error := error s;
     busy := busy s; visited := visited s |}.

Definition setError (e : string) : Comp State unit :=
  update (fun s => {| auth := auth s; email := email s; password := password s;
                      error := e; busy := busy s; visited := visited s |}).

Definition setBusy (b : bool) : Comp State unit :=
  update (fun s => {| auth := auth s; email := email s; password := password s;
                      error := error s; busy := b; visited := visited s |}).

Definition nav (to : string) : Comp State unit :=
  update (fun s => {| auth := auth s; email := email s; password := password s;
                      error := error s; busy := busy s; visited := visited s ++ [to] |}).

(** Lines 166-177. *)
Definition onSubmit (net : FetchOutcome) (written : Settled unit) : Comp State unit :=
  setBusy true ;;
  setError "" ;;
  cfinally
    (ctry
       (s <- get_state ;;
        zoom auth set_auth (AuthProvider.login (email s) (password s) net written) ;;
        nav "/")
       (fun _ => setError "Invalid credentials. Please try again."))
    (setBusy false).

End LoginPage.

(** ** QuickActions (lines 385-398) *)

Module QuickActions.

Record State : Type := mkState {
  downloading : bool;
  saved : list string            (* the file names handed to the browser by a.click() *)
}.

Definition setDownloading (b : bool) : Comp State unit :=
  update (fun s => {| downloading := b; saved := saved s |}).

(** [a.href = url; a.download = name; a.click()] *)
Definition click_download (name : string) : Comp State unit :=
  update (fun s => {| downloading := downloading s; saved := saved s ++ [name] |}).

(** [await res.blob()]: only the response itself has that method. *)
Definition blob_of (res : ApiValue) (blob : Settled unit) : Completion unit :=
  match res with
  | ACsv _ => settle blob
  | AJson JNull => Throw (mkExn "TypeError" "Cannot read properties of null")
  | AJson JUndefined => Throw (mkExn "TypeError" "Cannot read properties of undefined")
  | _ => Throw (mkExn "TypeError" "res.blob is not a function")
  end.

(** Lines 388-398; [iso] is [new Date().toISOString()]. *)
Definition exportCsv (net : FetchOutcome) (blob : Settled unit) (iso : string)
  : Comp State unit :=
  setDownloading true ;;
  cfinally
    (tok <- io (gets auth_token) ;;
     res <- io (api "/api/attendance/export?range=30d" (GET tok) net) ;;
     clift (blob_of res blob) ;;
     click_download ("attendance_" +:+ substring 0 10 iso +:+ ".csv"))
    (setDownloading false).

End QuickActions.

(** ** RecentEvents (lines 417-422) *)

Module RecentEvents.

(** [d.timeline?.slice(-5) || []] *)
Definition latest (d : ApiValue) : Completion JsVal :=
  and_then (prop "timeline" d) (fun timeline =>
  match timeline with
  | JUndefined | JNull => Normal (JArr [])
  | JArr events => Normal (JArr (slice_last 5 events))
  | JStr s => Normal (if truthy_str (str_slice_last 5 s)
                      then JStr (str_slice_last 5 s) else JArr [])
  | _ => Throw (mkExn "TypeError" "d.timeline.slice is not a function")
  end).

(** The effect of line 421, with the promise chain run to its end; the
    state is [items]. *)
Definition refresh (net : FetchOutcome) : Comp JsVal unit :=
  ctry
    (tok <- io (gets auth_token) ;;
     d <- io (api "/api/stats?range=1d" (GET tok) net) ;;
     items <- clift (latest d) ;;
     update (fun _ => items))
    (fun _ => cret tt).

End RecentEvents.

(** ** ReportsPage (lines 446-457) *)

Module ReportsPage.

Record State : Type := mkState {
  data : ApiValue;
  range : string;
  loading : bool
}.

Definition setData (d : ApiValue) : Comp State unit :=
  update (fun s => {| data := d; range := range s; loading := loading s |}).

Definition setLoading (b : bool) : Comp State unit :=
  update (fun s => {| data := data s; range := range s; loading := b |}).

(** The effect of lines 452-457, with the promise chain run to its end. *)
Definition reload (net : FetchOutcome) : Comp State unit :=
  setLoading true ;;
  s <- get_state ;;
  cfinally
    (tok <- io (gets auth_token) ;;
     d <- io (api ("/api/stats?range=" +:+ range s) (GET tok) net) ;;
     setData d)
    (setLoading false).

End ReportsPage.

(** ** AdminUsersPage (lines 513-539) *)

Module AdminUsersPage.

Record Form : Type := mkForm { name : string; email : string; role : string }.

Record State : Type := mkState {
  users : ApiValue;
  busy : bool;
  form : Form
}.

Definition blank : Form := {| name := ""; email := ""; role := "Student" |}.

Definition form_body (f : Form) : JsVal :=
  JObj [("name", JStr (name f)); ("email", JStr (email f)); ("role", JStr (role f))].

Definition setUsers (l : ApiValue) : Comp State unit :=
  update (fun s => {| users := l; busy := busy s; form := form s |}).

Definition setBusy (b : bool) : Comp State unit :=
  update (fun s => {| users := users s; busy := b; form := form s |}).

Definition setForm (f : Form) : Comp State unit :=
  update (fun s => {| users := users s; busy := busy s; form := f |}).

(** Lines 519-522. *)
Definition load (listed : FetchOutcome) : Comp State unit :=
  tok <- io (gets auth_token) ;;
  list <- io (api "/api/users" (GET tok) listed) ;;
  setUsers list.

(** Lines 525-533. *)
Definition addUser (created listed : FetchOutcome) : Comp State unit :=
  setBusy true ;;
  cfinally
    (s <- get_state ;;
     tok <- io (gets auth_token) ;;
     io (api "/api/users" (POST tok (Some (Plain (form_body (form s))))) created) ;;
     setForm blank ;;
     load listed)
    (setBusy false).

(** Lines 535-539; [confirmed] is the answer to [confirm("Delete this user?")]. *)
Definition removeUser (id : JsVal) (confirmed : bool) (deleted listed : FetchOutcome)
  : Comp State unit :=
  if negb confirmed then cret tt
  else
    tok <- io (gets auth_token) ;;
    io (api ("/api/users/" +:+ js_string id) (DELETE tok) deleted) ;;
    load listed.

End AdminUsersPage.

Close Scope comp_scope.

(** ** More vocabulary *)

Definition is_fetch (e : Event) : bool :=
  match e with
  | EFetch _ => true
  | _ => false
  end.

(** The platform calls of one iteration when there is nothing to capture
    from: a frame post with a [null] image, then the delay. *)
Definition blind_events (w : World) (sid : JsVal) : list Event :=
  [EFetch (frame_request w sid JNull); ESetTimeout 100].

(** Does the content type of a response mention [kind]? *)
Definition mentions (res : Response) (kind : string) : bool :=
  match content_type res with
  | Some c => includes c kind
  | None => false
  end.

(** A CSV export whose body cannot be read as text or JSON any more. *)
Definition csv_report : Response :=
  {| status := 200; content_type := Some "text/csv; charset=utf-8";
     text := Rejected (mkExn "TypeError" "body stream is locked");
     json := Rejected (mkExn "TypeError" "body stream is locked") |}.

(** A component whose canvas element is missing. *)
Definition no_canvas : World := set_canvasRef None capturing.

(** The steady platform, except that the canvas throws in iteration 3. *)
Definition tainted_env : Env :=
  {| camera := camera steady_env; played := played steady_env; started := started steady_env;
     snapshot := fun k => if Nat.eqb k 3
                          then Rejected (mkExn "SecurityError" "Tainted canvases may not be exported")
                          else snapshot steady_env k;
     sent := sent steady_env; completed := completed steady_env |}.

(** The world in which a started session reaches [completeSession]: the
    start has succeeded and the 20 iterations have run. *)
Definition before_completion (env : Env) (w : World) (video : Video) (n : nat) (sid : JsVal)
  : World :=
  let w0 := set_tasks [] (session_started w video n sid) in
  set_trace (trace w0 ++ flat_map (iteration_events env w0 sid) (seq 0 frames)) (resized w0).

(** The request of the effect of [AuthProvider] for a stored token [t]. *)
Definition me_request (w : World) (t : string) : Request :=
  build_request (API_BASE w) "/api/me" (GET (Some t)).

(** Sample answers of the backend to a login and to [/api/me]. *)
Definition alice : JsVal :=
  JObj [("id", JNum 1); ("name", JStr "Alice"); ("role", JStr "Admin")].

Definition login_ok : FetchOutcome :=
  Responded (json_response (JObj [("token", JStr "t0k3n"); ("user", alice)])).

Definition me_ok : FetchOutcome := Responded (json_response alice).

(** A browser that has never signed in. *)
Definition signed_out : AuthProvider.State := AuthProvider.mount ∅.

(** A browser that holds a token from an earlier visit. *)
Definition returning : AuthProvider.State := AuthProvider.mount {["fs_token" := "st4le"]}.

(** A login form filled in, on top of a signed-out provider. *)
Definition login_form : LoginPage.State :=
  {| LoginPage.auth := signed_out; LoginPage.email := "a@b.c"; LoginPage.password := "pw";
     LoginPage.error := ""; LoginPage.busy := false; LoginPage.visited := [] |}.

(** The requests of the other pages. *)
Definition export_request (w : World) : Request :=
  build_request (API_BASE w) "/api/attendance/export?range=30d" (GET (auth_token w)).

Definition users_request (w : World) : Request :=
  build_request (API_BASE w) "/api/users" (GET (auth_token w)).

Definition create_request (w : World) (f : AdminUsersPage.Form) : Request :=
  build_request (API_BASE w) "/api/users"
    (POST (auth_token w) (Some (Plain (AdminUsersPage.form_body f)))).

Definition delete_request (w : World) (id : JsVal) : Request :=
  build_request (API_BASE w) ("/api/users/" +:+ js_string id) (DELETE (auth_token w)).

Definition stats_request (w : World) (range : string) : Request :=
  build_request (API_BASE w) ("/api/stats?range=" +:+ range) (GET (auth_token w)).

(** Sample states of the other pages. *)
Definition quiet : QuickActions.State :=
  {| QuickActions.downloading := false; QuickActions.saved := [] |}.

Definition event (k : nat) : JsVal :=
  JObj [("userName", JStr "Alice"); ("emotion", JStr "happy"); ("time", JNum k)].

Definition seven_events : FetchOutcome :=
  Responded (json_response
    (JObj [("timeline", JArr [event 1; event 2; event 3; event 4; event 5; event 6; event 7])])).

Definition user_list : AdminUsersPage.State :=
  {| AdminUsersPage.users := AJson (JArr [alice]); AdminUsersPage.busy := false;
     AdminUsersPage.form := {| AdminUsersPage.name := "Bob"; AdminUsersPage.email := "b@b.c";
                               AdminUsersPage.role := "Staff" |} |}.

(** ** The result card (lines 374-379) *)








(** ** A session on a component without its video element *)




(** The login request. *)
Definition login_request (w : World) (email password : string) : Request :=
  build_request (API_BASE w) "/api/auth/login"
    (POST None (Some (Plain (JObj [("email", JStr email); ("password", JStr password)])))).

(** A browser whose storage is full. *)
Definition quota_exceeded : Settled unit :=
  Rejected (mkExn "QuotaExceededError" "The quota has been exceeded").

(** * Properties *)

(** ** What each primitive does to the world *)

Lemma emit_run e w : emit e w = (Normal tt, logged e w).
Proof. reflexivity. Qed.

Lemma api_run path o net w :
  api path o net w
  = (api_outcome net, logged (EFetch (build_request (API_BASE w) path o)) w).
Proof. unfold api, fetch, bind, gets, emit, modify, lift. destruct net; reflexivity. Qed.

Lemma append_eqb (base a b : string) :
  String.eqb (base +:+ a) (base +:+ b) = String.eqb a b.
Proof.
  induction base as [|c base IH]; simpl; [reflexivity|].
  rewrite Ascii.eqb_refl. exact IH.
Qed.

(** ** The transport client *)

Lemma read_response_failure res txt :
  ok res = false ->
  text res = Resolved txt ->
  read_response res
  = Throw (Error (if truthy_str txt then txt
                  else "Request failed: " +:+ decimal (status res))).
Proof.
  intros Hok Htxt. unfold read_response. rewrite Hok, Htxt. reflexivity.
Qed.

(** C10, as the code has it: a response outside 200-299 makes [api] throw
    an [Error]; its message is the response body text when that text is
    not empty, and "Request failed: " followed by the status otherwise.
    Every request goes out before the throw. *)
Theorem api_non_success_throws :
  forall (path : string) (o : ApiOpts) (res : Response) (txt : string) (w : World),
    ok res = false ->
    text res = Resolved txt ->
    completion (api path o (Responded res)) w
    = Throw (Error (match txt with
                    | EmptyString => "Request failed: " +:+ decimal (status res)
                    | String _ _ => txt
                    end))
    /\ trace (exec (api path o (Responded res)) w)
       = trace w ++ [EFetch (build_request (API_BASE w) path o)].
Proof.
  intros path o res txt w Hok Htxt.
  unfold completion, exec. rewrite api_run. simpl.
  rewrite (read_response_failure res txt Hok Htxt).
  destruct txt; split; reflexivity.
Qed.

Lemma api_non_success_throws_witness :
  completion (api "/api/me" (GET None) (Responded internal_error)) (mounted "" None)
  = Throw (Error "Server Error (500)")
  /\ trace (exec (api "/api/me" (GET None) (Responded internal_error)) (mounted "" None))
     = [EFetch (build_request "" "/api/me" (GET None))].
Proof.
  apply (api_non_success_throws "/api/me" (GET None) internal_error
           "Server Error (500)" (mounted "" None)); reflexivity.
Defined.

(** C10 as stated fails: a 500 response with an empty body makes [api]
    throw an error whose message is not the (empty) body text. *)
Lemma api_message_not_body_text :
  ok empty_error = false
  /\ text empty_error = Resolved ""
  /\ exists e : Exn,
       completion (api "/api/me" (GET None) (Responded empty_error)) (mounted "" None) = Throw e
       /\ message e = "Request failed: 500"
       /\ message e <> "".
Proof.
  split; [reflexivity|]. split; [reflexivity|].
  exists (Error "Request failed: 500").
  split; [reflexivity|]. split; [reflexivity|]. discriminate.
Qed.

(** ** The capture component, handler by handler *)

Lemma stopStream_run w :
  stopStream w = (Normal tt, set_streaming false (released w)).
Proof.
  unfold stopStream, released, bind, gets, emit, modify, setStreaming, ret.
  destruct (videoRef w) as [video|]; [|reflexivity].
  destruct (srcObject video); reflexivity.
Qed.

Lemma set_trace_same w : set_trace (trace w) w = w.
Proof. destruct w; reflexivity. Qed.

Lemma captureFrame_run u w :
  captureFrame (Resolved u) w
  = (Normal (captured w u), set_trace (trace w ++ capture_events w) (resized w)).
Proof.
  unfold captureFrame, captured, capture_events, resized, bind, gets, emit, modify, await, ret.
  destruct (videoRef w) as [v|]; [|rewrite app_nil_r, set_trace_same; reflexivity].
  destruct (canvasRef w); [|rewrite app_nil_r, set_trace_same; reflexivity].
  simpl. rewrite <- !app_assoc. reflexivity.
Qed.

(** The world after the completion request has been answered. *)
Lemma completeSession_run env sid w :
  completeSession env sid w
  = (Normal tt,
     set_sessionId JNull
       (set_streaming false
          (released
             (match api_outcome (completed env) with
              | Normal data => set_status "Completed" (set_result (Some data)
                                 (logged (EFetch (complete_request w sid)) w))
              | Throw _ => set_status "No face detected. You can use Manual Present."
                             (logged (EFetch (complete_request w sid)) w)
              end)))).
Proof.
  unfold completeSession, finally, try_catch, bind, gets.
  rewrite api_run.
  destruct (api_outcome (completed env)); simpl; rewrite stopStream_run; reflexivity.
Qed.

Lemma frame_step_run env sid i u w :
  snapshot env i = Resolved u ->
  frame_step env sid i w
  = (Normal tt, set_trace (trace w ++ iteration_events env w sid i) (resized w)).
Proof.
  intros Hu. unfold frame_step, bind, try_catch, gets. rewrite Hu, captureFrame_run.
  rewrite api_run. unfold iteration_events, shot_of. rewrite Hu.
  unfold frame_request, captured, capture_events, resized, emit, modify, ret, logged.
  destruct (api_outcome (sent env i)); destruct (videoRef w) as [v|]; destruct (canvasRef w);
    unfold set_trace, set_canvasRef; simpl; rewrite <- ?app_assoc; reflexivity.
Qed.

(** ** The streaming loop *)

Lemma iteration_events_stable env l w sid k :
  iteration_events env (set_trace l (resized w)) sid k = iteration_events env w sid k.
Proof.
  unfold iteration_events, capture_events, captured, frame_request, resized.
  destruct (videoRef w) as [v|] eqn:Hv; destruct (canvasRef w) eqn:Hc;
    destruct w; simpl in *; rewrite ?Hv, ?Hc; reflexivity.
Qed.

Lemma resized_stable l l' w :
  set_trace l' (resized (set_trace l (resized w))) = set_trace l' (resized w).
Proof.
  unfold resized.
  destruct (videoRef w) as [v|] eqn:Hv; destruct (canvasRef w) eqn:Hc;
    destruct w; simpl in *; rewrite ?Hv, ?Hc; reflexivity.
Qed.

(** [n] iterations from index [i], when every capture yields an image. *)
Lemma frames_loop_run env sid n : forall i w,
  (forall k, i <= k < i + n -> exists u, snapshot env k = Resolved u) ->
  frames_loop env sid n i w
  = (Normal tt,
     match n with
     | 0 => w
     | S _ => set_trace (trace w ++ flat_map (iteration_events env w sid) (seq i n)) (resized w)
     end).
Proof.
  induction n as [|n IH]; intros i w Hshots; [reflexivity|].
  destruct (Hshots i) as [u Hu]; [lia|].
  cbn [frames_loop]. unfold bind at 1. rewrite (frame_step_run env sid i u w Hu).
  rewrite IH by (intros k Hk; apply Hshots; lia).
  f_equal. destruct n as [|n].
  - cbn [seq flat_map]. rewrite app_nil_r. reflexivity.
  - rewrite resized_stable.
    replace (flat_map (iteration_events env (set_trace (trace w ++ iteration_events env w sid i)
                                               (resized w)) sid) (seq (S i) (S n)))
      with (flat_map (iteration_events env w sid) (seq (S i) (S n))).
    + f_equal.
      replace (trace (set_trace (trace w ++ iteration_events env w sid i) (resized w)))
        with (trace w ++ iteration_events env w sid i) by reflexivity.
      rewrite <- app_assoc. reflexivity.
    + apply flat_map_ext. intros k. symmetry. apply iteration_events_stable.
Qed.

Lemma count_app p l1 l2 : count p (l1 ++ l2) = count p l1 + count p l2.
Proof. induction l1 as [|e l1 IH]; simpl; [reflexivity|]. rewrite IH. lia. Qed.

Lemma count_flat_map p (f : nat -> list Event) c l :
  (forall k, count p (f k) = c) -> count p (flat_map f l) = length l * c.
Proof.
  intros Hf. induction l as [|k l IH]; simpl; [reflexivity|].
  rewrite count_app, Hf, IH. reflexivity.
Qed.

Lemma count_capture_events p w :
  (forall a b, p (EDrawImage a b) = false) ->
  (forall a b, p (EStrokeGuide a b) = false) ->
  (forall m, p (EToDataURL m) = false) ->
  count p (capture_events w) = 0.
Proof.
  intros Hd Hs Ht. unfold capture_events.
  destruct (videoRef w); [|reflexivity]. destruct (canvasRef w); [|reflexivity].
  simpl. rewrite Hd, Hs, Ht. reflexivity.
Qed.

Lemma count_release_events p w :
  (forall id, p (EStopTracks id) = false) -> count p (release_events w) = 0.
Proof.
  intros Hp. unfold release_events.
  destruct (videoRef w) as [v|]; [|reflexivity]. destruct (srcObject v); [|reflexivity].
  simpl. rewrite Hp. reflexivity.
Qed.

Lemma frame_posts_of_iteration env w sid k :
  count (is_request_to (API_BASE w) "/api/attendance/frame") (iteration_events env w sid k) = 1.
Proof.
  unfold iteration_events. rewrite count_app, count_capture_events by reflexivity.
  simpl. rewrite String.eqb_refl. reflexivity.
Qed.

Lemma completions_of_iteration env w sid k :
  count (is_request_to (API_BASE w) "/api/attendance/complete") (iteration_events env w sid k) = 0.
Proof.
  unfold iteration_events. rewrite count_app, count_capture_events by reflexivity.
  simpl. rewrite append_eqb. reflexivity.
Qed.

Lemma delays_of_iteration env w sid k :
  count (is_timeout 100) (iteration_events env w sid k) = 1.
Proof.
  unfold iteration_events. rewrite count_app, count_capture_events by reflexivity.
  reflexivity.
Qed.

Lemma completeSession_trace env sid w :
  trace (exec (completeSession env sid) w)
  = trace w ++ [EFetch (complete_request w sid)] ++ release_events w.
Proof.
  unfold exec. rewrite completeSession_run. unfold released, release_events, logged.
  destruct (api_outcome (completed env)); destruct w as [? ? ? ? ? ? [v|] ? ? ? ?]; simpl;
    try reflexivity; destruct (srcObject v); simpl; rewrite <- ?app_assoc; reflexivity.
Qed.

Lemma streamFrames_run env sid w :
  (forall k, k < frames -> exists u, snapshot env k = Resolved u) ->
  streamFrames env sid w
  = completeSession env sid
      (set_trace (trace w ++ flat_map (iteration_events env w sid) (seq 0 frames)) (resized w)).
Proof.
  intros Hshots. unfold streamFrames, bind.
  rewrite frames_loop_run by (intros k Hk; apply Hshots; lia).
  reflexivity.
Qed.

Lemma complete_request_stable l w sid :
  complete_request (set_trace l (resized w)) sid = complete_request w sid.
Proof.
  unfold complete_request, resized.
  destruct (videoRef w); [destruct (canvasRef w)|]; reflexivity.
Qed.

Lemma release_events_stable l w :
  release_events (set_trace l (resized w)) = release_events w.
Proof.
  unfold release_events, resized.
  destruct (videoRef w) as [v|] eqn:Hv; destruct (canvasRef w) eqn:Hc;
    destruct w; simpl in *; rewrite ?Hv; reflexivity.
Qed.

(** The log of a whole [streamFrames], and what it holds. *)
Lemma streamFrames_log env sid w :
  (forall k, k < frames -> exists u, snapshot env k = Resolved u) ->
  let w' := exec (streamFrames env sid) w in
  trace w'
  = trace w
    ++ flat_map (iteration_events env w sid) (seq 0 20)
    ++ [EFetch (complete_request w sid)] ++ release_events w
  /\ count (is_request_to (API_BASE w) "/api/attendance/frame") (trace w')
     = count (is_request_to (API_BASE w) "/api/attendance/frame") (trace w) + 20
  /\ count (is_timeout 100) (trace w') = count (is_timeout 100) (trace w) + 20
  /\ count (is_request_to (API_BASE w) "/api/attendance/complete") (trace w')
     = count (is_request_to (API_BASE w) "/api/attendance/complete") (trace w) + 1.
Proof.
  intros Hshots w'.
  assert (Htrace : trace w'
       = trace w ++ flat_map (iteration_events env w sid) (seq 0 20)
         ++ [EFetch (complete_request w sid)] ++ release_events w).
  { subst w'. unfold exec. rewrite (streamFrames_run env sid w Hshots).
    fold (exec (completeSession env sid)
            (set_trace (trace w ++ flat_map (iteration_events env w sid) (seq 0 frames))
               (resized w))).
    rewrite completeSession_trace, complete_request_stable, release_events_stable.
    replace (trace (set_trace (trace w ++ flat_map (iteration_events env w sid) (seq 0 frames))
                      (resized w)))
      with (trace w ++ flat_map (iteration_events env w sid) (seq 0 frames)) by reflexivity.
    rewrite <- app_assoc. reflexivity. }
  split; [exact Htrace|].
  rewrite Htrace, !count_app.
  rewrite (count_flat_map _ _ 1 _ (frame_posts_of_iteration env w sid)).
  rewrite (count_flat_map _ _ 1 _ (delays_of_iteration env w sid)).
  rewrite (count_flat_map _ _ 0 _ (completions_of_iteration env w sid)).
  rewrite !count_release_events by reflexivity.
  rewrite length_seq. simpl. rewrite append_eqb, String.eqb_refl. simpl.
  repeat split; lia.
Qed.

(** C1: when every frame capture yields an image, [streamFrames] makes
    exactly 20 iterations, each one a capture, one frame post and then a
    delay of 100, and right after the 20th it issues the completion
    request; it completes normally.  The answers to the frame posts
    ([sent env]) appear nowhere: the log is the same whatever they are. *)
Theorem streamFrames_fixed_cadence :
  forall (env : Env) (sid : JsVal) (w : World),
    (forall k, k < frames -> exists u, snapshot env k = Resolved u) ->
    let w' := exec (streamFrames env sid) w in
    frames = 20
    /\ completion (streamFrames env sid) w = Normal tt
    /\ trace w'
       = trace w
         ++ flat_map (iteration_events env w sid) (seq 0 20)
         ++ [EFetch (complete_request w sid)] ++ release_events w
    /\ count (is_request_to (API_BASE w) "/api/attendance/frame") (trace w')
       = count (is_request_to (API_BASE w) "/api/attendance/frame") (trace w) + 20
    /\ count (is_timeout 100) (trace w') = count (is_timeout 100) (trace w) + 20
    /\ count (is_request_to (API_BASE w) "/api/attendance/complete") (trace w')
       = count (is_request_to (API_BASE w) "/api/attendance/complete") (trace w) + 1.
Proof.
  intros env sid w Hshots w'.
  split; [reflexivity|]. split.
  { unfold completion. rewrite (streamFrames_run env sid w Hshots), completeSession_run.
    reflexivity. }
  exact (streamFrames_log env sid w Hshots).
Qed.

Lemma streamFrames_fixed_cadence_witness :
  (forall k, k < frames -> exists u, snapshot flaky_env k = Resolved u)
  /\ completion (streamFrames flaky_env (JStr "s-1")) capturing = Normal tt
  /\ count (is_timeout 100) (trace (exec (streamFrames flaky_env (JStr "s-1")) capturing)) = 20.
Proof.
  assert (H : forall k, k < frames -> exists u, snapshot flaky_env k = Resolved u)
    by (intros k _; eexists; reflexivity).
  split; [exact H|].
  destruct (streamFrames_fixed_cadence flaky_env (JStr "s-1") capturing H)
    as (_ & Hc & _ & _ & Ht & _).
  split; [exact Hc | exact Ht].
Defined.

(** ** Failed frame posts *)

Lemma frame_step_with_sent f env sid i w :
  frame_step (with_sent f env) sid i w = frame_step env sid i w.
Proof.
  unfold frame_step, bind, try_catch, gets. simpl.
  destruct (captureFrame (snapshot env i) w) as [[img|e] w1]; [|reflexivity].
  rewrite !api_run.
  destruct (api_outcome (f i)); destruct (api_outcome (sent env i)); reflexivity.
Qed.

Lemma frames_loop_with_sent f env sid n : forall i w,
  frames_loop (with_sent f env) sid n i w = frames_loop env sid n i w.
Proof.
  induction n as [|n IH]; intros i w; [reflexivity|].
  cbn [frames_loop]. unfold bind. rewrite frame_step_with_sent.
  destruct (frame_step env sid i w) as [[[]|e] w1]; [apply IH | reflexivity].
Qed.

Lemma streamFrames_with_sent f env sid w :
  streamFrames (with_sent f env) sid w = streamFrames env sid w.
Proof.
  unfold streamFrames, bind. rewrite frames_loop_with_sent.
  destruct (frames_loop env sid frames 0 w) as [[[]|e] w1]; reflexivity.
Qed.

(** C7: an iteration whose frame post fails completes normally, with the
    same platform calls as a successful one (capture, post, delay of 100);
    status, result, session handle, streaming flag, streams and pending
    work are untouched; the loop goes on with the next index; and the
    whole of [streamFrames] is the same whatever the frame posts are
    answered, so no number of failures changes or shortens it. *)
Theorem frame_send_failures_are_ignored :
  forall (env : Env) (sid : JsVal) (i : nat) (w : World) (u : string) (e : Exn),
    snapshot env i = Resolved u ->
    api_outcome (sent env i) = Throw e ->
    let w' := exec (frame_step env sid i) w in
    completion (frame_step env sid i) w = Normal tt
    /\ w' = set_trace (trace w ++ iteration_events env w sid i) (resized w)
    /\ st_status w' = st_status w
    /\ result w' = result w
    /\ sessionId w' = sessionId w
    /\ streaming w' = streaming w
    /\ streams w' = streams w
    /\ tasks w' = tasks w
    /\ (forall n, frames_loop env sid (S n) i w = frames_loop env sid n (S i) w')
    /\ (forall f, streamFrames (with_sent f env) sid w = streamFrames env sid w).
Proof.
  intros env sid i w u e Hu _ w'.
  assert (Hw' : w' = set_trace (trace w ++ iteration_events env w sid i) (resized w)).
  { subst w'. unfold exec. rewrite (frame_step_run env sid i u w Hu). reflexivity. }
  split; [unfold completion; rewrite (frame_step_run env sid i u w Hu); reflexivity|].
  split; [exact Hw'|].
  assert (Hfields : forall l, st_status (set_trace l (resized w)) = st_status w
                              /\ result (set_trace l (resized w)) = result w
                              /\ sessionId (set_trace l (resized w)) = sessionId w
                              /\ streaming (set_trace l (resized w)) = streaming w
                              /\ streams (set_trace l (resized w)) = streams w
                              /\ tasks (set_trace l (resized w)) = tasks w).
  { intros l. unfold resized.
    destruct (videoRef w); [destruct (canvasRef w)|]; repeat split; reflexivity. }
  rewrite Hw'.
  destruct (Hfields (trace w ++ iteration_events env w sid i)) as (H1 & H2 & H3 & H4 & H5 & H6).
  repeat (split; [assumption|]).
  split.
  - intros n. cbn [frames_loop]. unfold bind.
    rewrite (frame_step_run env sid i u w Hu). reflexivity.
  - intros f. apply streamFrames_with_sent.
Qed.

Lemma frame_send_failures_are_ignored_witness :
  snapshot flaky_env 0 = Resolved "data:image/jpeg;base64,AAAA"
  /\ api_outcome (sent flaky_env 0) = Throw (mkExn "TypeError" "Failed to fetch")
  /\ completion (frame_step flaky_env (JStr "s-1") 0) capturing = Normal tt
  /\ st_status (exec (frame_step flaky_env (JStr "s-1") 0) capturing) = "Streaming frames...".
Proof.
  split; [reflexivity|]. split; [reflexivity|].
  destruct (frame_send_failures_are_ignored flaky_env (JStr "s-1") 0 capturing
              "data:image/jpeg;base64,AAAA" (mkExn "TypeError" "Failed to fetch")
              eq_refl eq_refl) as (Hc & _ & Hs & _).
  split; [exact Hc | exact Hs].
Defined.

(** ** Starting a session *)

Lemma startSession_started env w video n data sid :
  videoRef w = Some video ->
  camera env = Resolved n ->
  played env = Resolved tt ->
  api_outcome (started env) = Normal data ->
  destructure_sessionId data = Normal sid ->
  startSession env w = (Normal tt, session_started w video n sid).
Proof.
  intros Hv Hcam Hplay Hstart Hsid.
  unfold startSession, getUserMedia, attach_and_play, bind, try_catch, gets,
    setResult, setStatus, setStreaming, setSessionId, spawn, emit, modify, await, ret, lift.
  rewrite Hcam, Hplay. simpl. rewrite Hv. rewrite api_run, Hstart, Hsid.
  destruct w; reflexivity.
Qed.

(** ** Finishing a session *)

Lemma stop_tracks_all_ended ms : Forall (fun t => t = Ended) (stop_tracks ms).
Proof. unfold stop_tracks. induction ms; simpl; constructor; auto. Qed.

Lemma stopped_after_alter (l : list MediaStream) id ms :
  l !! id = Some ms ->
  exists ms', alter stop_tracks id l !! id = Some ms' /\ Forall (fun t => t = Ended) ms'.
Proof.
  intros Hl. exists (stop_tracks ms). split; [|apply stop_tracks_all_ended].
  rewrite list_lookup_alter. unfold MediaStream in *. rewrite Hl.
  destruct (decide (id = id)) as [_|Hne]; [reflexivity | congruence].
Qed.

Lemma completeSession_fields env sid w :
  let w' := exec (completeSession env sid) w in
  completion (completeSession env sid) w = Normal tt
  /\ sessionId w' = JNull
  /\ streaming w' = false
  /\ tasks w' = tasks w
  /\ videoRef w' = videoRef w
  /\ streams w' = streams_released w.
Proof.
  unfold exec, completion. rewrite completeSession_run.
  unfold released, streams_released, logged.
  destruct (api_outcome (completed env)); destruct w as [? ? ? ? ? ? [v|] ? ? ? ?]; simpl;
    try (repeat split; reflexivity); destruct (srcObject v); repeat split; reflexivity.
Qed.

Lemma stop_tracks_repeat ms : stop_tracks ms = repeat Ended (length ms).
Proof. unfold stop_tracks. induction ms; simpl; [reflexivity|]. f_equal. assumption. Qed.





(** ** A whole session *)

Lemma loop_world_fields l w :
  API_BASE (set_trace l (resized w)) = API_BASE w
  /\ videoRef (set_trace l (resized w)) = videoRef w
  /\ streams (set_trace l (resized w)) = streams w
  /\ tasks (set_trace l (resized w)) = tasks w.
Proof.
  unfold resized.
  destruct (videoRef w) as [v|] eqn:Hv; destruct (canvasRef w) eqn:Hc;
    destruct w; simpl in *; rewrite ?Hv; repeat split; reflexivity.
Qed.

Lemma attempt_started env w video n data sid :
  videoRef w = Some video ->
  streaming w = false ->
  tasks w = [] ->
  camera env = Resolved n ->
  played env = Resolved tt ->
  api_outcome (started env) = Normal data ->
  destructure_sessionId data = Normal sid ->
  attempt env w
  = exec (streamFrames env sid) (set_tasks [] (session_started w video n sid)).
Proof.
  intros Hv Hs Ht Hcam Hplay Hstart Hsid.
  assert (Hrun : exec (startSession env) w = session_started w video n sid).
  { unfold exec.
    rewrite (startSession_started env w video n data sid Hv Hcam Hplay Hstart Hsid).
    reflexivity. }
  unfold attempt, click_start, drain. rewrite Hs, Hrun.
  unfold session_started at 1. cbn [tasks set_tasks]. rewrite Ht. reflexivity.
Qed.

(** ** Failures at session start *)

(** C6: when [getUserMedia] rejects, the status becomes exactly "Camera
    permission denied or unavailable"; the only platform call of the
    attempt is the camera request, so no session-start request is issued;
    no stream is acquired and nothing is scheduled. *)
Theorem camera_denied_no_session_start :
  forall (env : Env) (w : World) (e : Exn),
    camera env = Rejected e ->
    let w' := exec (startSession env) w in
    completion (startSession env) w = Normal tt
    /\ st_status w' = "Camera permission denied or unavailable"
    /\ trace w' = trace w ++ [EGetUserMedia 640 480]
    /\ count (is_request_to (API_BASE w) "/api/attendance/start") (trace w')
       = count (is_request_to (API_BASE w) "/api/attendance/start") (trace w)
    /\ streams w' = streams w
    /\ tasks w' = tasks w
    /\ streaming w' = streaming w
    /\ sessionId w' = sessionId w.
Proof.
  intros env w e Hcam w'.
  assert (Hrun : startSession env w
                 = (Normal tt, set_status "Camera permission denied or unavailable"
                                 (logged (EGetUserMedia 640 480)
                                    (set_status "Starting session..." (set_result None w))))).
  { unfold startSession, getUserMedia, bind, try_catch, setResult, setStatus, emit, modify, await.
    rewrite Hcam. reflexivity. }
  subst w'. unfold exec, completion. rewrite Hrun. cbn [fst snd].
  split; [reflexivity|]. split; [reflexivity|]. split; [reflexivity|]. split.
  { unfold logged. cbn [trace set_status set_trace set_result]. rewrite count_app. simpl. lia. }
  repeat split; reflexivity.
Qed.

Lemma camera_denied_no_session_start_witness :
  camera denied_env = Rejected (mkExn "NotAllowedError" "Permission denied")
  /\ st_status (exec (startSession denied_env) fresh) = "Camera permission denied or unavailable"
  /\ trace (exec (startSession denied_env) fresh) = [EGetUserMedia 640 480].
Proof.
  split; [reflexivity|].
  destruct (camera_denied_no_session_start denied_env fresh
              (mkExn "NotAllowedError" "Permission denied") eq_refl)
    as (_ & Hst & Htr & _).
  split; [exact Hst | exact Htr].
Defined.

(** Whenever the session-start request fails, [startSession] schedules
    nothing and posts no frame. *)
Lemma startSession_start_failure env w e :
  api_outcome (started env) = Throw e ->
  tasks (exec (startSession env) w) = tasks w
  /\ count (is_request_to (API_BASE w) "/api/attendance/frame") (trace (exec (startSession env) w))
     = count (is_request_to (API_BASE w) "/api/attendance/frame") (trace w).
Proof.
  intros Hstart.
  unfold exec, startSession, getUserMedia, attach_and_play, bind, try_catch, gets,
    setResult, setStatus, setStreaming, setSessionId, spawn, emit, modify, await, ret, lift.
  destruct (camera env) as [n|ec]; simpl.
  - destruct w as [base tok sid st res str [v|] cv pool ts tr]; simpl.
    + destruct (played env) as [[]|ep]; simpl.
      * rewrite api_run, Hstart. simpl. split; [reflexivity|].
        rewrite !count_app. simpl. rewrite append_eqb. simpl. lia.
      * split; [reflexivity|]. rewrite !count_app. simpl. lia.
    + rewrite api_run, Hstart. simpl. split; [reflexivity|].
      rewrite !count_app. simpl. rewrite append_eqb. simpl. lia.
  - split; [reflexivity|]. destruct w; simpl. rewrite count_app. simpl. lia.
Qed.

(** A successful answer without a handle is not a failure: the session
    goes on with [undefined] as its handle and posts its 20 frames. *)
Example start_without_handle_streams_frames :
  sessionId (click_start handleless_env fresh) = JUndefined
  /\ tasks (click_start handleless_env fresh) = [TStreamFrames JUndefined]
  /\ count (is_request_to "http://127.0.0.1:8000" "/api/attendance/frame")
       (trace (attempt handleless_env fresh)) = 20.
Proof. repeat split; vm_compute; reflexivity. Qed.

(** C5: if the session-start request fails, a press of the start button
    posts no frame, neither at once nor later: nothing is left pending and
    the log holds no more requests to the frame endpoint than before. *)
Theorem start_failure_sends_no_frame :
  forall (env : Env) (w : World) (e : Exn),
    tasks w = [] ->
    api_outcome (started env) = Throw e ->
    let w' := attempt env w in
    tasks w' = []
    /\ count (is_request_to (API_BASE w) "/api/attendance/frame") (trace w')
       = count (is_request_to (API_BASE w) "/api/attendance/frame") (trace w).
Proof.
  intros env w e Ht Hstart w'. subst w'. unfold attempt, click_start.
  destruct (streaming w).
  - unfold drain. rewrite Ht. split; reflexivity.
  - destruct (startSession_start_failure env w e Hstart) as (Htasks & Hcount).
    unfold drain. rewrite Htasks, Ht. cbn [fold_left]. split; [reflexivity|].
    exact Hcount.
Qed.

Lemma start_failure_sends_no_frame_witness :
  api_outcome (started start_refused_env) = Throw (Error "Server Error (500)")
  /\ tasks (attempt start_refused_env fresh) = []
  /\ count (is_request_to "http://127.0.0.1:8000" "/api/attendance/frame")
       (trace (attempt start_refused_env fresh)) = 0.
Proof.
  split; [reflexivity|].
  exact (start_failure_sends_no_frame start_refused_env fresh (Error "Server Error (500)")
           eq_refl eq_refl).
Defined.

(** ** The manual fallback *)





(** ** Where the start handler leaves resources behind *)

(** The start button does nothing while the streaming flag is set. *)
Lemma click_start_disabled env w : streaming w = true -> click_start env w = w.
Proof. intros Hs. unfold click_start. rewrite Hs. reflexivity. Qed.

(** With the camera granted and the video playing, a failed session-start
    request leaves the streaming flag set and the new stream live. *)
Lemma startSession_start_failure_stuck env w video n e :
  videoRef w = Some video ->
  camera env = Resolved n ->
  played env = Resolved tt ->
  api_outcome (started env) = Throw e ->
  let w' := exec (startSession env) w in
  streaming w' = true
  /\ streams w' = streams w ++ [repeat Live n]
  /\ tasks w' = tasks w
  /\ st_status w' = "Camera permission denied or unavailable".
Proof.
  intros Hv Hcam Hplay Hstart.
  unfold exec, startSession, getUserMedia, attach_and_play, bind, try_catch, gets,
    setResult, setStatus, setStreaming, setSessionId, spawn, emit, modify, await, ret, lift.
  rewrite Hcam, Hplay. simpl. rewrite Hv. rewrite api_run, Hstart.
  destruct w; simpl. repeat split; reflexivity.
Qed.

(** C4 at its failing input: the camera is granted, the video plays and
    the backend refuses the session-start request.  The component then
    shows the camera message, keeps the streaming flag set and the camera
    stream live, has nothing pending that would ever clear them, and its
    start button stays without effect whatever the platform would answer. *)
Theorem start_failure_leaves_component_stuck :
  let w' := attempt start_refused_env fresh in
  st_status w' = "Camera permission denied or unavailable"
  /\ streaming w' = true
  /\ streams w' = [[Live]]
  /\ active_streams w' = 1
  /\ tasks w' = []
  /\ ~ idle w'
  /\ forall env, click_start env w' = w'.
Proof.
  cbv zeta.
  assert (Hs : streaming (attempt start_refused_env fresh) = true) by reflexivity.
  split; [reflexivity|]. split; [exact Hs|]. split; [reflexivity|]. split; [reflexivity|].
  split; [reflexivity|]. split.
  - intros (Hidle & _). rewrite Hs in Hidle. discriminate.
  - intros env. apply click_start_disabled. exact Hs.
Qed.

(** C3 at its failing input: a first press where the camera is granted
    but [video.play()] rejects, then a second press on a steady platform.
    After the first press the stream is live and the start button is still
    enabled; right after the second press two camera streams are live at
    once; when the second session has run to its end the first stream is
    still live. *)
Theorem two_camera_streams_active :
  let w1 := attempt play_blocked_env fresh in
  let w2 := click_start steady_env w1 in
  let w3 := attempt steady_env w1 in
  streaming w1 = false
  /\ streams w1 = [[Live]]
  /\ streams w2 = [[Live]; [Live]]
  /\ active_streams w2 = 2
  /\ sessionId w2 = JStr "s-1"
  /\ streams w3 = [[Live]; [Ended]]
  /\ active_streams w3 = 1
  /\ streaming w3 = false.
Proof.
  cbv zeta. repeat split; vm_compute; reflexivity.
Qed.

(** * Further properties of the code *)

(** ** The transport client, beyond failures *)

(** X1: a call of [api] makes exactly one [fetch], to [API_BASE] followed
    by the path and with credentials included, whatever the answer, and
    changes nothing else; when the fetch itself rejects, [api] rejects
    with the same exception. *)
Theorem api_fetches_once :
  forall (path : string) (o : ApiOpts) (net : FetchOutcome) (w : World),
    exec (api path o net) w = logged (EFetch (build_request (API_BASE w) path o)) w
    /\ count is_fetch (trace (exec (api path o net) w)) = count is_fetch (trace w) + 1
    /\ url (build_request (API_BASE w) path o) = API_BASE w +:+ path
    /\ credentials (build_request (API_BASE w) path o) = "include"
    /\ (forall e, net = NetworkError e -> completion (api path o net) w = Throw e).
Proof.
  intros path o net w. unfold exec, completion. rewrite api_run. cbn [fst snd].
  split; [reflexivity|]. split.
  { unfold logged. cbn [trace set_trace]. rewrite count_app. simpl. lia. }
  split; [reflexivity|]. split; [reflexivity|].
  intros e ->. reflexivity.
Qed.

Lemma or_str_empty c : or_str c "" = c.
Proof. destruct c; reflexivity. Qed.

(** X2: on a 2xx response [api] resolves, by the content type, with the
    response itself (text/csv, which wins over application/json and reads
    no body), with the parsed JSON body, or with the body text; it resolves
    with nothing else, and exactly when the body it reads resolves. *)
Theorem api_resolves_by_content_type :
  forall (path : string) (o : ApiOpts) (res : Response) (w : World) (v : ApiValue),
    ok res = true ->
    (completion (api path o (Responded res)) w = Normal v
     <-> (mentions res "text/csv" = true /\ v = ACsv res)
         \/ (mentions res "text/csv" = false /\ mentions res "application/json" = true
             /\ exists j, json res = Resolved j /\ v = AJson j)
         \/ (mentions res "text/csv" = false /\ mentions res "application/json" = false
             /\ exists s, text res = Resolved s /\ v = AText s)).
Proof.
  intros path o res w v Hok. unfold completion. rewrite api_run. cbn [fst api_outcome].
  unfold read_response, mentions. rewrite Hok. cbn [negb].
  destruct (content_type res) as [c|]; [rewrite or_str_empty|];
    [destruct (includes c "text/csv"); [|destruct (includes c "application/json")]|].
  - split.
    + intros H. inversion H. left. split; reflexivity.
    + intros [[_ ->]|[(H & _)|(H & _)]]; [reflexivity|discriminate|discriminate].
  - split.
    + intros H. right. left. split; [reflexivity|]. split; [reflexivity|].
      destruct (json res) as [j|e]; simpl in H; inversion H. exists j. split; reflexivity.
    + intros [[H _]|[(_ & _ & j & Hj & ->)|(_ & H & _)]]; try discriminate.
      rewrite Hj. reflexivity.
  - split.
    + intros H. right. right. split; [reflexivity|]. split; [reflexivity|].
      destruct (text res) as [s|e]; simpl in H; inversion H. exists s. split; reflexivity.
    + intros [[H _]|[(_ & H & _)|(_ & _ & s & Hs & ->)]]; try discriminate.
      rewrite Hs. reflexivity.
  - simpl. split.
    + intros H. right. right. split; [reflexivity|]. split; [reflexivity|].
      destruct (text res) as [s|e]; simpl in H; inversion H. exists s. split; reflexivity.
    + intros [[H _]|[(_ & H & _)|(_ & _ & s & Hs & ->)]]; try discriminate.
      rewrite Hs. reflexivity.
Qed.

Lemma api_resolves_by_content_type_witness :
  ok csv_report = true
  /\ completion (api "/api/attendance/export?range=30d" (GET None) (Responded csv_report)) fresh
     = Normal (ACsv csv_report).
Proof.
  split; [reflexivity|].
  apply (proj2 (api_resolves_by_content_type "/api/attendance/export?range=30d" (GET None)
                  csv_report fresh (ACsv csv_report) eq_refl)).
  left. split; reflexivity.
Defined.

(** ** The capture card, beyond the claims *)

Lemma stop_tracks_twice ms : stop_tracks (stop_tracks ms) = stop_tracks ms.
Proof. unfold stop_tracks. induction ms; simpl; [reflexivity|]. f_equal. assumption. Qed.

Lemma released_streams w : streams (released w) = streams_released w.
Proof.
  unfold released, streams_released.
  destruct (videoRef w) as [v|]; [|reflexivity]. destruct (srcObject v); reflexivity.
Qed.

Lemma released_videoRef w : videoRef (released w) = videoRef w.
Proof.
  unfold released.
  destruct (videoRef w) as [v|] eqn:Hv; [|assumption].
  destruct (srcObject v); [|assumption].
  destruct w; simpl in *. assumption.
Qed.

Lemma stopStream_fields w :
  st_status (exec stopStream w) = st_status w
  /\ result (exec stopStream w) = result w
  /\ sessionId (exec stopStream w) = sessionId w
  /\ videoRef (exec stopStream w) = videoRef w.
Proof.
  unfold exec. rewrite stopStream_run. unfold released, logged.
  destruct w as [? ? ? ? ? ? [v|] ? ? ? ?]; simpl; [|repeat split; reflexivity].
  destruct (srcObject v); simpl; repeat split; reflexivity.
Qed.

(** X3: [stopStream] may be called any number of times: a second call
    leaves the streams as the first one did, and no call touches status,
    result or session handle; the streaming flag ends up false. *)
Theorem stopStream_idempotent :
  forall w : World,
    let w1 := exec stopStream w in
    let w2 := exec stopStream w1 in
    completion stopStream w = Normal tt
    /\ streams w1 = streams_released w
    /\ streams w2 = streams w1
    /\ streaming w1 = false /\ streaming w2 = false
    /\ st_status w2 = st_status w /\ result w2 = result w /\ sessionId w2 = sessionId w
    /\ videoRef w2 = videoRef w.
Proof.
  intros w w1 w2.
  assert (H1 : w1 = set_streaming false (released w)).
  { subst w1. unfold exec. rewrite stopStream_run. reflexivity. }
  assert (H2 : w2 = set_streaming false (released w1)).
  { subst w2. unfold exec. rewrite stopStream_run. reflexivity. }
  split; [unfold completion; rewrite stopStream_run; reflexivity|].
  assert (Hs1 : streams w1 = streams_released w).
  { rewrite H1. cbn [streams set_streaming]. apply released_streams. }
  assert (Hv1 : videoRef w1 = videoRef w).
  { rewrite H1. cbn [videoRef set_streaming]. apply released_videoRef. }
  split; [exact Hs1|]. split.
  { rewrite H2. cbn [streams set_streaming]. rewrite released_streams.
    unfold streams_released at 1. rewrite Hv1, Hs1. unfold streams_released.
    destruct (videoRef w) as [v|]; [|reflexivity]. destruct (srcObject v) as [id|]; [|reflexivity].
    rewrite list_alter_alter_eq. apply list_alter_ext; [|reflexivity].
    intros ms _. apply stop_tracks_twice. }
  split; [rewrite H1; reflexivity|]. split; [rewrite H2; reflexivity|].
  destruct (stopStream_fields w) as (A1 & A2 & A3 & A4).
  destruct (stopStream_fields w1) as (B1 & B2 & B3 & B4).
  fold w1 in A1, A2, A3, A4. fold w2 in B1, B2, B3, B4.
  repeat split; congruence.
Qed.

(** ** Nothing to capture from *)

Lemma frame_step_blind env sid i w :
  videoRef w = None \/ canvasRef w = None ->
  frame_step env sid i w = (Normal tt, set_trace (trace w ++ blind_events w sid) w).
Proof.
  intros Hmiss.
  assert (Hcap : captureFrame (snapshot env i) w = (Normal JNull, w)).
  { unfold captureFrame, bind, gets, ret.
    destruct Hmiss as [H|H]; rewrite H; [reflexivity|].
    destruct (videoRef w); reflexivity. }
  unfold frame_step, bind, try_catch, gets. rewrite Hcap, api_run.
  unfold blind_events, frame_request, emit, modify, ret, logged.
  destruct (api_outcome (sent env i)); destruct w; simpl; rewrite <- app_assoc; reflexivity.
Qed.

Lemma frames_loop_blind env sid n : forall i w,
  videoRef w = None \/ canvasRef w = None ->
  frames_loop env sid n i w
  = (Normal tt, set_trace (trace w ++ flat_map (fun _ => blind_events w sid) (seq i n)) w).
Proof.
  induction n as [|n IH]; intros i w Hmiss.
  - cbn [frames_loop seq flat_map]. rewrite app_nil_r, set_trace_same. reflexivity.
  - cbn [frames_loop]. unfold bind at 1. rewrite (frame_step_blind env sid i w Hmiss).
    rewrite IH by (destruct w; exact Hmiss).
    cbn [seq flat_map]. destruct w; simpl. rewrite <- app_assoc. reflexivity.
Qed.

(** X4: without a video or a canvas element [captureFrame] touches no
    canvas and yields [null], so [streamFrames] still makes its 20 frame
    posts, each with a [null] image and followed by the delay, and then
    the completion request; it completes normally whatever the canvas
    would have done. *)
Theorem streamFrames_without_canvas :
  forall (env : Env) (sid : JsVal) (w : World),
    videoRef w = None \/ canvasRef w = None ->
    let w' := exec (streamFrames env sid) w in
    completion (streamFrames env sid) w = Normal tt
    /\ trace w'
       = trace w
         ++ flat_map (fun _ => [EFetch (frame_request w sid JNull); ESetTimeout 100]) (seq 0 20)
         ++ [EFetch (complete_request w sid)] ++ release_events w
    /\ canvasRef w' = canvasRef w.
Proof.
  intros env sid w Hmiss w'.
  assert (Hrun : streamFrames env sid w
                 = completeSession env sid
                     (set_trace (trace w ++ flat_map (fun _ => blind_events w sid) (seq 0 frames)) w)).
  { unfold streamFrames, bind. rewrite (frames_loop_blind env sid frames 0 w Hmiss). reflexivity. }
  split; [unfold completion; rewrite Hrun, completeSession_run; reflexivity|].
  subst w'. unfold exec. rewrite Hrun.
  fold (exec (completeSession env sid)
          (set_trace (trace w ++ flat_map (fun _ => blind_events w sid) (seq 0 frames)) w)).
  split.
  - rewrite completeSession_trace. destruct w; simpl. rewrite <- app_assoc. reflexivity.
  - unfold exec. rewrite completeSession_run. unfold released, logged.
    destruct (api_outcome (completed env)); destruct w as [? ? ? ? ? ? [v|] ? ? ? ?]; simpl;
      try reflexivity; destruct (srcObject v); reflexivity.
Qed.

Lemma streamFrames_without_canvas_witness :
  canvasRef no_canvas = None
  /\ completion (streamFrames tainted_env (JStr "s-1")) no_canvas = Normal tt
  /\ count (is_request_to "http://127.0.0.1:8000" "/api/attendance/frame")
       (trace (exec (streamFrames tainted_env (JStr "s-1")) no_canvas)) = 20.
Proof.
  split; [reflexivity|].
  destruct (streamFrames_without_canvas tainted_env (JStr "s-1") no_canvas (or_intror eq_refl))
    as (Hc & Htr & _).
  split; [exact Hc|]. rewrite Htr. reflexivity.
Defined.

(** ** A capture that throws *)

Lemma captureFrame_throws e w v c :
  videoRef w = Some v ->
  canvasRef w = Some c ->
  captureFrame (Rejected e) w
  = (Throw e, set_trace (trace w ++ capture_events w) (resized w)).
Proof.
  intros Hv Hc.
  unfold captureFrame, capture_events, resized, bind, gets, emit, modify, await, throw.
  rewrite Hv, Hc. simpl. rewrite <- !app_assoc. reflexivity.
Qed.

Lemma capture_events_stable l w : capture_events (set_trace l (resized w)) = capture_events w.
Proof.
  unfold capture_events, resized.
  destruct (videoRef w) as [v|] eqn:Hv; destruct (canvasRef w) eqn:Hc;
    destruct w; simpl in *; rewrite ?Hv, ?Hc; reflexivity.
Qed.

Lemma refs_stable l w v c :
  videoRef w = Some v ->
  canvasRef w = Some c ->
  videoRef (set_trace l (resized w)) = Some v
  /\ exists c', canvasRef (set_trace l (resized w)) = Some c'.
Proof.
  intros Hv Hc. unfold resized. rewrite Hv, Hc.
  destruct w; simpl in *. split; [assumption | eexists; reflexivity].
Qed.

Lemma frames_loop_abort env sid e n : forall i w k v c,
  i <= k < i + n ->
  (forall j, i <= j < k -> exists u, snapshot env j = Resolved u) ->
  snapshot env k = Rejected e ->
  videoRef w = Some v ->
  canvasRef w = Some c ->
  frames_loop env sid n i w
  = (Throw e,
     set_trace (trace w ++ flat_map (iteration_events env w sid) (seq i (k - i))
                ++ capture_events w) (resized w)).
Proof.
  induction n as [|n IH]; intros i w k v c Hk Hbefore Hfail Hv Hc; [lia|].
  cbn [frames_loop]. unfold bind at 1.
  destruct (Nat.eq_dec i k) as [->|Hne].
  - unfold frame_step, bind at 1. rewrite Hfail, (captureFrame_throws e w v c Hv Hc).
    rewrite Nat.sub_diag. reflexivity.
  - destruct (Hbefore i) as [u Hu]; [lia|].
    rewrite (frame_step_run env sid i u w Hu).
    destruct (refs_stable (trace w ++ iteration_events env w sid i) w v c Hv Hc)
      as (Hv' & c' & Hc').
    rewrite (IH (S i) _ k v c') by (try assumption; try lia; intros j Hj; apply Hbefore; lia).
    f_equal. rewrite resized_stable, capture_events_stable.
    replace (k - i) with (S (k - S i)) by lia. cbn [seq flat_map].
    replace (flat_map (iteration_events env (set_trace (trace w ++ iteration_events env w sid i)
                                               (resized w)) sid) (seq (S i) (k - S i)))
      with (flat_map (iteration_events env w sid) (seq (S i) (k - S i)))
      by (apply flat_map_ext; intros j; symmetry; apply iteration_events_stable).
    f_equal.
    replace (trace (set_trace (trace w ++ iteration_events env w sid i) (resized w)))
      with (trace w ++ iteration_events env w sid i) by reflexivity.
    rewrite <- !app_assoc. reflexivity.
Qed.

(** X5: [captureFrame] is called outside the [try] of the loop.  When
    the canvas throws in iteration [k] (after [k] good captures),
    [streamFrames] rejects with that exception: [k] frames have been
    posted, the completion request is never made, and neither
    [stopStream] nor any setter runs, so streams, streaming flag, session
    handle and status stay as they were. *)
Theorem capture_failure_aborts_session :
  forall (env : Env) (sid : JsVal) (w : World) (k : nat) (e : Exn) (v : Video) (c : Canvas),
    videoRef w = Some v ->
    canvasRef w = Some c ->
    k < frames ->
    (forall j, j < k -> exists u, snapshot env j = Resolved u) ->
    snapshot env k = Rejected e ->
    let w' := exec (streamFrames env sid) w in
    completion (streamFrames env sid) w = Throw e
    /\ count (is_request_to (API_BASE w) "/api/attendance/frame") (trace w')
       = count (is_request_to (API_BASE w) "/api/attendance/frame") (trace w) + k
    /\ count (is_request_to (API_BASE w) "/api/attendance/complete") (trace w')
       = count (is_request_to (API_BASE w) "/api/attendance/complete") (trace w)
    /\ streams w' = streams w
    /\ streaming w' = streaming w
    /\ sessionId w' = sessionId w
    /\ st_status w' = st_status w
    /\ tasks w' = tasks w.
Proof.
  intros env sid w k e v c Hv Hc Hk Hbefore Hfail w'.
  assert (Hrun : streamFrames env sid w
                 = (Throw e,
                    set_trace (trace w ++ flat_map (iteration_events env w sid) (seq 0 (k - 0))
                               ++ capture_events w) (resized w))).
  { unfold streamFrames, bind.
    rewrite (frames_loop_abort env sid e frames 0 w k v c); try assumption; try lia.
    - reflexivity.
    - intros j Hj. apply Hbefore. lia. }
  split; [unfold completion; rewrite Hrun; reflexivity|].
  assert (Hw' : w' = set_trace (trace w ++ flat_map (iteration_events env w sid) (seq 0 k)
                                 ++ capture_events w) (resized w)).
  { subst w'. unfold exec. rewrite Hrun. cbn [snd]. rewrite Nat.sub_0_r. reflexivity. }
  assert (Htr : trace w' = trace w ++ flat_map (iteration_events env w sid) (seq 0 k)
                             ++ capture_events w).
  { rewrite Hw'. reflexivity. }
  rewrite Htr, !count_app.
  rewrite (count_flat_map _ _ 1 (seq 0 k)) by (intros j; apply frame_posts_of_iteration).
  rewrite (count_flat_map _ _ 0 (seq 0 k)) by (intros j; apply completions_of_iteration).
  rewrite !count_capture_events by reflexivity.
  rewrite length_seq.
  split; [lia|]. split; [lia|].
  rewrite Hw'. unfold resized. rewrite Hv, Hc. repeat split; reflexivity.
Qed.

Lemma capture_failure_aborts_session_witness :
  snapshot tainted_env 3 = Rejected (mkExn "SecurityError" "Tainted canvases may not be exported")
  /\ completion (streamFrames tainted_env (JStr "s-1")) capturing
     = Throw (mkExn "SecurityError" "Tainted canvases may not be exported")
  /\ streaming (exec (streamFrames tainted_env (JStr "s-1")) capturing) = true
  /\ streams (exec (streamFrames tainted_env (JStr "s-1")) capturing) = [[Live]].
Proof.
  split; [reflexivity|].
  assert (Hk : 3 < frames) by (unfold frames; lia).
  destruct (capture_failure_aborts_session tainted_env (JStr "s-1") capturing 3
              (mkExn "SecurityError" "Tainted canvases may not be exported")
              {| srcObject := Some 0; videoWidth := 0; videoHeight := 0 |}
              {| width := 300; height := 150 |}
              eq_refl eq_refl Hk
              (fun j _ => match j as j0
                                return (j0 < 3 -> exists u, snapshot tainted_env j0 = Resolved u)
                          with
                          | 0 | 1 | 2 => fun _ => ex_intro _ "data:image/jpeg;base64,AAAA" eq_refl
                          | S (S (S j')) => fun H => ltac:(exfalso; lia)
                          end ltac:(assumption))
              eq_refl) as (Hc & _ & _ & Hs & Hst & _).
  split; [exact Hc|]. split; [exact Hst | exact Hs].
Defined.

(** ** A whole session, start to end *)

Lemma attempt_reaches_completion env w video n data sid :
  videoRef w = Some video ->
  streaming w = false ->
  tasks w = [] ->
  camera env = Resolved n ->
  played env = Resolved tt ->
  api_outcome (started env) = Normal data ->
  destructure_sessionId data = Normal sid ->
  (forall k, k < frames -> exists u, snapshot env k = Resolved u) ->
  attempt env w = exec (completeSession env sid) (before_completion env w video n sid).
Proof.
  intros Hv Hs Ht Hcam Hplay Hstart Hsid Hshots.
  rewrite (attempt_started env w video n data sid Hv Hs Ht Hcam Hplay Hstart Hsid).
  unfold exec. rewrite (streamFrames_run env sid _ Hshots). reflexivity.
Qed.

Lemma iteration_events_started env w video n sid k :
  videoRef w = Some video ->
  iteration_events env (set_tasks [] (session_started w video n sid)) sid k
  = iteration_events env w sid k.
Proof.
  intros Hv. unfold iteration_events, capture_events, captured, frame_request.
  destruct w as [? ? ? ? ? ? vr [c|] ? ? ?]; cbn in Hv; subst vr; reflexivity.
Qed.

Lemma fetches_of_iteration env w sid k : count is_fetch (iteration_events env w sid k) = 1.
Proof.
  unfold iteration_events. rewrite count_app, count_capture_events by reflexivity.
  reflexivity.
Qed.

(** X6: the platform calls of a whole session, in order: the camera
    request, [play], the session-start request, 20 iterations whose frame
    posts all carry the handle taken from the start response, the
    completion request with the same handle, and the stop of the acquired
    stream; 22 requests in all. *)
Theorem session_log :
  forall (env : Env) (w : World) (video : Video) (n : nat) (data : ApiValue) (sid : JsVal),
    videoRef w = Some video ->
    streaming w = false ->
    tasks w = [] ->
    camera env = Resolved n ->
    played env = Resolved tt ->
    api_outcome (started env) = Normal data ->
    destructure_sessionId data = Normal sid ->
    (forall k, k < frames -> exists u, snapshot env k = Resolved u) ->
    let w' := attempt env w in
    trace w'
    = trace w
      ++ [EGetUserMedia 640 480; EPlay; EFetch (start_request w)]
      ++ flat_map (iteration_events env w sid) (seq 0 20)
      ++ [EFetch (complete_request w sid); EStopTracks (length (streams w))]
    /\ count is_fetch (trace w') = count is_fetch (trace w) + 22.
Proof.
  intros env w video n data sid Hv Hs Ht Hcam Hplay Hstart Hsid Hshots w'.
  assert (Htr : trace w'
    = trace w
      ++ [EGetUserMedia 640 480; EPlay; EFetch (start_request w)]
      ++ flat_map (iteration_events env w sid) (seq 0 20)
      ++ [EFetch (complete_request w sid); EStopTracks (length (streams w))]).
  { subst w'.
    rewrite (attempt_started env w video n data sid Hv Hs Ht Hcam Hplay Hstart Hsid).
    destruct (streamFrames_log env sid (set_tasks [] (session_started w video n sid)) Hshots)
      as (Hlog & _).
    rewrite Hlog.
    replace (flat_map (iteration_events env (set_tasks [] (session_started w video n sid)) sid)
               (seq 0 20))
      with (flat_map (iteration_events env w sid) (seq 0 20))
      by (apply flat_map_ext; intros k; symmetry; apply iteration_events_started; exact Hv).
    unfold session_started, logged, release_events, complete_request, start_request.
    destruct w; simpl. rewrite <- !app_assoc. reflexivity. }
  split; [exact Htr|].
  rewrite Htr, !count_app.
  rewrite (count_flat_map _ _ 1 (seq 0 20)) by (intros k; apply fetches_of_iteration).
  rewrite length_seq. simpl. lia.
Qed.

Lemma session_log_witness :
  destructure_sessionId (AJson (JObj [("sessionId", JStr "s-1")])) = Normal (JStr "s-1")
  /\ count is_fetch (trace (attempt flaky_env fresh)) = 22.
Proof.
  split; [reflexivity|].
  exact (proj2 (session_log flaky_env fresh
                  {| srcObject := None; videoWidth := 0; videoHeight := 0 |} 1
                  (AJson (JObj [("sessionId", JStr "s-1")])) (JStr "s-1")
                  eq_refl eq_refl eq_refl eq_refl eq_refl eq_refl eq_refl
                  (fun k _ => ex_intro _ "data:image/jpeg;base64,AAAA" eq_refl))).
Defined.

Lemma completeSession_shown env sid w :
  st_status (exec (completeSession env sid) w)
  = match api_outcome (completed env) with
    | Normal _ => "Completed"
    | Throw _ => "No face detected. You can use Manual Present."
    end
  /\ result (exec (completeSession env sid) w)
     = match api_outcome (completed env) with
       | Normal data => Some data
       | Throw _ => result w
       end.
Proof.
  unfold exec. rewrite completeSession_run. unfold released, logged.
  destruct (api_outcome (completed env)); destruct w as [? ? ? ? ? ? [v|] ? ? ? ?]; simpl;
    try (split; reflexivity); destruct (srcObject v); split; reflexivity.
Qed.

Lemma before_completion_result env w video n sid :
  result (before_completion env w video n sid) = None.
Proof.
  unfold before_completion, resized, session_started, logged.
  destruct w as [? ? ? ? ? ? ? [c|] ? ? ?]; reflexivity.
Qed.

(** X7: what a session that reaches the completion call shows in the end.
    If the completion request succeeds, the status is "Completed" and the
    result is the value the backend answered with; if it fails, the status
    is the no-face message and the result is empty, since [startSession]
    has cleared the one shown before. *)
Theorem session_result :
  forall (env : Env) (w : World) (video : Video) (n : nat) (data : ApiValue) (sid : JsVal),
    videoRef w = Some video ->
    streaming w = false ->
    tasks w = [] ->
    camera env = Resolved n ->
    played env = Resolved tt ->
    api_outcome (started env) = Normal data ->
    destructure_sessionId data = Normal sid ->
    (forall k, k < frames -> exists u, snapshot env k = Resolved u) ->
    let w' := attempt env w in
    (forall outcome, api_outcome (completed env) = Normal outcome ->
       st_status w' = "Completed" /\ result w' = Some outcome)
    /\ (forall e, api_outcome (completed env) = Throw e ->
          st_status w' = "No face detected. You can use Manual Present."
          /\ result w' = None).
Proof.
  intros env w video n data sid Hv Hs Ht Hcam Hplay Hstart Hsid Hshots w'.
  subst w'.
  rewrite (attempt_reaches_completion env w video n data sid
             Hv Hs Ht Hcam Hplay Hstart Hsid Hshots).
  destruct (completeSession_shown env sid (before_completion env w video n sid)) as (Hst & Hres).
  rewrite Hst, Hres, before_completion_result.
  split; intros x Hx; rewrite Hx; split; reflexivity.
Qed.

Lemma session_result_witness :
  api_outcome (completed steady_env) = Normal recorded
  /\ st_status (attempt steady_env fresh) = "Completed"
  /\ result (attempt steady_env fresh) = Some recorded.
Proof.
  split; [reflexivity|].
  exact (proj1 (session_result steady_env fresh
                  {| srcObject := None; videoWidth := 0; videoHeight := 0 |} 1
                  (AJson (JObj [("sessionId", JStr "s-1")])) (JStr "s-1")
                  eq_refl eq_refl eq_refl eq_refl eq_refl eq_refl eq_refl
                  (fun k _ => ex_intro _ "data:image/jpeg;base64,AAAA" eq_refl))
               recorded eq_refl).
Defined.

(** ** Idle before, idle after *)

Lemma active_stop_tracks ms : active (stop_tracks ms) = false.
Proof. unfold active, stop_tracks. induction ms; simpl; auto. Qed.

Lemma active_count_app (l1 l2 : list MediaStream) :
  length (filter (fun ms => active ms = true) (l1 ++ l2))
  = length (filter (fun ms => active ms = true) l1)
    + length (filter (fun ms => active ms = true) l2).
Proof. rewrite filter_app, length_app. reflexivity. Qed.

Lemma before_completion_attached env w video n sid :
  videoRef (before_completion env w video n sid)
  = Some {| srcObject := Some (length (streams w));
            videoWidth := videoWidth video; videoHeight := videoHeight video |}
  /\ streams (before_completion env w video n sid) = streams w ++ [repeat Live n].
Proof.
  unfold before_completion.
  destruct (loop_world_fields
              (trace (set_tasks [] (session_started w video n sid))
               ++ flat_map (iteration_events env (set_tasks [] (session_started w video n sid)) sid)
                    (seq 0 frames))
              (set_tasks [] (session_started w video n sid))) as (_ & Hvid & Hstreams & _).
  cbv zeta. rewrite Hvid, Hstreams. split; reflexivity.
Qed.

(** X8: on a mounted video element, a session that reaches the
    completion call takes an idle component back to idle, whatever the
    frame posts and the completion request are answered: the start button
    is enabled, no handle is held, every track of the stream acquired for
    the session has ended, no camera stream is active and nothing is
    pending, so the next press starts a new session. *)
Theorem session_returns_to_idle :
  forall (env : Env) (w : World) (video : Video) (n : nat) (data : ApiValue) (sid : JsVal),
    idle w ->
    videoRef w = Some video ->
    tasks w = [] ->
    camera env = Resolved n ->
    played env = Resolved tt ->
    api_outcome (started env) = Normal data ->
    destructure_sessionId data = Normal sid ->
    (forall k, k < frames -> exists u, snapshot env k = Resolved u) ->
    let w' := attempt env w in
    idle w' /\ tasks w' = [] /\ videoRef w' <> None
    /\ streams w' = streams w ++ [repeat Ended n].
Proof.
  intros env w video n data sid (Hs & _ & Hact) Hv Ht Hcam Hplay Hstart Hsid Hshots w'.
  subst w'.
  rewrite (attempt_reaches_completion env w video n data sid
             Hv Hs Ht Hcam Hplay Hstart Hsid Hshots).
  destruct (completeSession_fields env sid (before_completion env w video n sid))
    as (_ & Fsid & Fstr & Ftasks & Fvid & Fstreams).
  destruct (before_completion_attached env w video n sid) as (Hatt & Hpool).
  assert (Hafter : streams (exec (completeSession env sid) (before_completion env w video n sid))
                   = streams w ++ [repeat Ended n]).
  { rewrite Fstreams. unfold streams_released.
    rewrite Hatt. cbn [srcObject]. rewrite Hpool.
    replace (length (streams w)) with (length (streams w) + 0) at 1 by lia.
    rewrite alter_app_r. cbn [alter list_alter].
    rewrite stop_tracks_repeat, repeat_length. reflexivity. }
  split; [split; [exact Fstr | split; [exact Fsid|]]|].
  - unfold active_streams. rewrite Hafter.
    rewrite active_count_app. unfold active_streams in Hact. rewrite Hact.
    rewrite filter_cons_False
      by (rewrite <- (repeat_length Ended n), <- stop_tracks_repeat, active_stop_tracks;
          discriminate).
    reflexivity.
  - split; [|split; [|exact Hafter]].
    + rewrite Ftasks. unfold before_completion.
      destruct (loop_world_fields
              (trace (set_tasks [] (session_started w video n sid))
               ++ flat_map (iteration_events env (set_tasks [] (session_started w video n sid)) sid)
                    (seq 0 frames))
              (set_tasks [] (session_started w video n sid))) as (_ & _ & _ & Htasks).
      cbv zeta. rewrite Htasks. reflexivity.
    + rewrite Fvid, Hatt. discriminate.
Qed.

Lemma session_returns_to_idle_witness :
  idle fresh /\ idle (attempt no_face_env fresh).
Proof.
  assert (Hidle : idle fresh) by (repeat split; reflexivity).
  split; [exact Hidle|].
  exact (proj1 (session_returns_to_idle no_face_env fresh
                  {| srcObject := None; videoWidth := 0; videoHeight := 0 |} 1
                  (AJson (JObj [("sessionId", JStr "s-1")])) (JStr "s-1")
                  Hidle eq_refl eq_refl eq_refl eq_refl eq_refl eq_refl
                  (fun k _ => ex_intro _ "data:image/jpeg;base64,AAAA" eq_refl))).
Defined.

(** X9: [startSession] discards the result shown before as its first
    step and never sets one itself: after it the result is empty, whatever
    the camera, the video element and the backend do. *)
Theorem startSession_clears_result :
  forall (env : Env) (w : World), result (exec (startSession env) w) = None.
Proof.
  intros env w.
  unfold exec, startSession, getUserMedia, attach_and_play, bind, try_catch, gets,
    setResult, setStatus, setStreaming, setSessionId, spawn, emit, modify, await, ret, lift.
  destruct (camera env) as [n|ec]; simpl; [|reflexivity].
  destruct w as [base tok sid st res str [v|] cv pool ts tr]; simpl.
  - destruct (played env) as [[]|ep]; simpl; [|reflexivity].
    rewrite api_run. destruct (api_outcome (started env)) as [d|e]; simpl; [|reflexivity].
    destruct (destructure_sessionId d); reflexivity.
  - rewrite api_run. destruct (api_outcome (started env)) as [d|e]; simpl; [|reflexivity].
    destruct (destructure_sessionId d); reflexivity.
Qed.

(** X10: once a start has succeeded, the session is under way (streaming,
    handle held, the loop pending) and any further press of the start
    button changes nothing at all, whatever the platform would answer. *)
Theorem second_press_is_ignored :
  forall (env env' : Env) (w : World) (video : Video) (n : nat) (data : ApiValue) (sid : JsVal),
    videoRef w = Some video ->
    streaming w = false ->
    camera env = Resolved n ->
    played env = Resolved tt ->
    api_outcome (started env) = Normal data ->
    destructure_sessionId data = Normal sid ->
    let w1 := click_start env w in
    streaming w1 = true
    /\ sessionId w1 = sid
    /\ tasks w1 = tasks w ++ [TStreamFrames sid]
    /\ streams w1 = streams w ++ [repeat Live n]
    /\ click_start env' w1 = w1.
Proof.
  intros env env' w video n data sid Hv Hs Hcam Hplay Hstart Hsid w1.
  assert (Hw1 : w1 = session_started w video n sid).
  { subst w1. unfold click_start, exec. rewrite Hs.
    rewrite (startSession_started env w video n data sid Hv Hcam Hplay Hstart Hsid).
    reflexivity. }
  rewrite Hw1. split; [reflexivity|]. split; [reflexivity|]. split; [reflexivity|].
  split; [reflexivity|]. apply click_start_disabled. reflexivity.
Qed.

Lemma second_press_is_ignored_witness :
  streaming (click_start steady_env fresh) = true
  /\ click_start denied_env (click_start steady_env fresh) = click_start steady_env fresh.
Proof.
  destruct (second_press_is_ignored steady_env denied_env fresh
              {| srcObject := None; videoWidth := 0; videoHeight := 0 |} 1
              (AJson (JObj [("sessionId", JStr "s-1")])) (JStr "s-1")
              eq_refl eq_refl eq_refl eq_refl eq_refl eq_refl) as (H1 & _ & _ & _ & H2).
  split; [exact H1 | exact H2].
Defined.

(** * The session identity holder *)

Lemma io_api_run {S} path o net (s : S) w :
  io (api path o net) (s, w)
  = (api_outcome net, (s, logged (EFetch (build_request (API_BASE w) path o)) w)).
Proof. unfold io. cbn [fst snd]. rewrite api_run. reflexivity. Qed.

Lemma prop_token_of_user d u :
  prop "user" d = Normal u -> exists t, prop "token" d = Normal t.
Proof.
  destruct d as [r|v|s]; simpl; try (intros _; eexists; reflexivity).
  destruct v; simpl; try discriminate; intros _; eexists; reflexivity.
Qed.

Lemma login_run email password net written s w :
  AuthProvider.login email password net written (s, w)
  = match api_outcome net with
    | Normal data =>
        match prop "user" data, prop "token" data with
        | Normal u, Normal t =>
            match written with
            | Resolved _ =>
                (Normal tt,
                 ({| AuthProvider.user := AJson u; AuthProvider.token := t;
                     AuthProvider.loading := AuthProvider.loading s;
                     AuthProvider.localStorage :=
                       <["fs_token" := js_string t]> (AuthProvider.localStorage s) |},
                  logged (EFetch (login_request w email password)) w))
            | Rejected e =>
                (Throw e,
                 ({| AuthProvider.user := AJson u; AuthProvider.token := t;
                     AuthProvider.loading := AuthProvider.loading s;
                     AuthProvider.localStorage := AuthProvider.localStorage s |},
                  logged (EFetch (login_request w email password)) w))
            end
        | Throw e, _ | _, Throw e =>
            (Throw e, (s, logged (EFetch (login_request w email password)) w))
        end
    | Throw e => (Throw e, (s, logged (EFetch (login_request w email password)) w))
    end.
Proof.
  unfold AuthProvider.login, cbind at 1, login_request. rewrite io_api_run.
  destruct (api_outcome net) as [data|e]; [|reflexivity].
  unfold cbind, clift, AuthProvider.setUser, AuthProvider.setToken, AuthProvider.setItem, update.
  destruct (prop "user" data) as [u|e] eqn:Hu.
  - destruct (prop_token_of_user data u Hu) as [t Ht]. rewrite Ht.
    destruct written as [[]|e]; reflexivity.
  - reflexivity.
Qed.

(** X11: the three ways in which [login] rejects.  It always makes its
    one request, without an Authorization header, and a rejected [login]
    never changes local storage or the loading flag.  If the request
    fails, or the answer is [null] so that its properties cannot be read,
    user and token are as before as well.  If only the write to local
    storage is refused, [login] rejects with that error after user and
    token have been set from the answer. *)
Theorem login_rejections :
  forall (email password : string) (net : FetchOutcome) (written : Settled unit)
         (s : AuthProvider.State) (w : World) (e : Exn),
    outcome (AuthProvider.login email password net written) s w = Throw e ->
    let s' := after (AuthProvider.login email password net written) s w in
    world_after (AuthProvider.login email password net written) s w
    = logged (EFetch (login_request w email password)) w
    /\ req_headers (login_request w email password) = [("Content-Type", Some "application/json")]
    /\ AuthProvider.localStorage s' = AuthProvider.localStorage s
    /\ AuthProvider.loading s' = AuthProvider.loading s
    /\ ((api_outcome net = Throw e /\ s' = s)
        \/ (exists data, api_outcome net = Normal data /\ prop "user" data = Throw e /\ s' = s)
        \/ (exists data u t,
              api_outcome net = Normal data
              /\ prop "user" data = Normal u /\ prop "token" data = Normal t
              /\ written = Rejected e
              /\ AuthProvider.user s' = AJson u /\ AuthProvider.token s' = t)).
Proof.
  intros email password net written s w e. unfold outcome, after, world_after.
  rewrite login_run.
  destruct (api_outcome net) as [data|e0] eqn:Hnet.
  - destruct (prop "user" data) as [u|e1] eqn:Hu.
    + destruct (prop_token_of_user data u Hu) as [t Ht]. rewrite Ht.
      destruct written as [[]|e2]; [discriminate|].
      intros He. inversion He; subst e2. cbn [fst snd].
      split; [reflexivity|]. split; [reflexivity|]. split; [reflexivity|]. split; [reflexivity|].
      right. right. exists data, u, t. repeat split; reflexivity || assumption.
    + intros He. inversion He; subst e1. cbn [fst snd].
      split; [reflexivity|]. split; [reflexivity|]. split; [reflexivity|]. split; [reflexivity|].
      right. left. exists data. repeat split; reflexivity || assumption.
  - intros He. inversion He; subst e0. cbn [fst snd].
    split; [reflexivity|]. split; [reflexivity|]. split; [reflexivity|]. split; [reflexivity|].
    left. split; reflexivity.
Qed.

Lemma login_rejections_witness :
  outcome (AuthProvider.login "a@b.c" "pw" login_ok quota_exceeded) signed_out fresh
  = Throw (mkExn "QuotaExceededError" "The quota has been exceeded")
  /\ AuthProvider.localStorage
       (after (AuthProvider.login "a@b.c" "pw" login_ok quota_exceeded) signed_out fresh)
     = AuthProvider.localStorage signed_out.
Proof.
  split; [reflexivity|].
  exact (proj1 (proj2 (proj2
    (login_rejections "a@b.c" "pw" login_ok quota_exceeded signed_out fresh
       (mkExn "QuotaExceededError" "The quota has been exceeded") eq_refl)))).
Defined.

Lemma restore_run me s w :
  AuthProvider.restore me (s, w)
  = match AuthProvider.localStorage s !! "fs_token" with
    | Some (String a t) =>
        (Normal tt,
         (match api_outcome me with
          | Normal u =>
              {| AuthProvider.user := u; AuthProvider.token := JStr (String a t);
                 AuthProvider.loading := false;
                 AuthProvider.localStorage := AuthProvider.localStorage s |}
          | Throw _ =>
              {| AuthProvider.user := AuthProvider.user s; AuthProvider.token := JNull;
                 AuthProvider.loading := false;
                 AuthProvider.localStorage := delete "fs_token" (AuthProvider.localStorage s) |}
          end,
          logged (EFetch (me_request w (String a t))) w))
    | _ =>
        (Normal tt,
         ({| AuthProvider.user := AuthProvider.user s; AuthProvider.token := AuthProvider.token s;
             AuthProvider.loading := false;
             AuthProvider.localStorage := AuthProvider.localStorage s |}, w))
    end.
Proof.
  unfold AuthProvider.restore, cbind at 1, get_state. cbn [fst].
  destruct (AuthProvider.localStorage s !! "fs_token") as [[|a t]|]; try reflexivity.
  cbn [truthy_str].
  unfold cbind, cfinally, ctry, AuthProvider.setToken, AuthProvider.setUser,
    AuthProvider.setLoading, AuthProvider.removeItem, update. cbn [fst snd].
  rewrite io_api_run. unfold me_request.
  destruct (api_outcome me); reflexivity.
Qed.

(** X12: the token of a successful login survives a reload.  After
    [login] the token is in the state and under "fs_token" in local
    storage; when the provider mounts again over that storage, its effect
    asks [/api/me] once, with "Bearer " and that token as Authorization,
    and if the backend answers, the answer is the user, the token is back
    in the state and loading is over. *)
Theorem login_token_survives_reload :
  forall (email password : string) (net me : FetchOutcome) (fields : list (string * JsVal))
         (t : string) (s : AuthProvider.State) (w w2 : World),
    api_outcome net = Normal (AJson (JObj fields)) ->
    get_field "token" fields = JStr t ->
    truthy_str t = true ->
    let s1 := after (AuthProvider.login email password net (Resolved tt)) s w in
    let s2 := after (AuthProvider.restore me) (AuthProvider.mount (AuthProvider.localStorage s1)) w2 in
    outcome (AuthProvider.login email password net (Resolved tt)) s w = Normal tt
    /\ AuthProvider.user s1 = AJson (get_field "user" fields)
    /\ AuthProvider.token s1 = JStr t
    /\ AuthProvider.localStorage s1 !! "fs_token" = Some t
    /\ world_after (AuthProvider.restore me) (AuthProvider.mount (AuthProvider.localStorage s1)) w2
       = logged (EFetch (me_request w2 t)) w2
    /\ req_headers (me_request w2 t)
       = [("Content-Type", Some "application/json"); ("Authorization", Some ("Bearer " +:+ t))]
    /\ AuthProvider.loading s2 = false
    /\ (forall u, api_outcome me = Normal u ->
          AuthProvider.user s2 = u /\ AuthProvider.token s2 = JStr t
          /\ AuthProvider.localStorage s2 !! "fs_token" = Some t).
Proof.
  intros email password net me fields t s w w2 Hnet Htok Ht s1 s2.
  assert (Hs1 : s1 = {| AuthProvider.user := AJson (get_field "user" fields);
                        AuthProvider.token := JStr t;
                        AuthProvider.loading := AuthProvider.loading s;
                        AuthProvider.localStorage :=
                          <["fs_token" := t]> (AuthProvider.localStorage s) |}).
  { subst s1. unfold after. rewrite login_run, Hnet. cbn [prop]. rewrite Htok. reflexivity. }
  assert (Hstored : AuthProvider.localStorage s1 !! "fs_token" = Some t).
  { rewrite Hs1. cbn [AuthProvider.localStorage]. apply lookup_insert_eq. }
  split; [unfold outcome; rewrite login_run, Hnet; cbn [prop]; rewrite Htok; reflexivity|].
  split; [rewrite Hs1; reflexivity|]. split; [rewrite Hs1; reflexivity|].
  split; [exact Hstored|].
  destruct t as [|a t]; [discriminate|].
  assert (Hrun : AuthProvider.restore me (AuthProvider.mount (AuthProvider.localStorage s1), w2)
                 = (Normal tt,
                    (match api_outcome me with
                     | Normal u =>
                         {| AuthProvider.user := u; AuthProvider.token := JStr (String a t);
                            AuthProvider.loading := false;
                            AuthProvider.localStorage := AuthProvider.localStorage s1 |}
                     | Throw _ =>
                         {| AuthProvider.user := AJson JNull; AuthProvider.token := JNull;
                            AuthProvider.loading := false;
                            AuthProvider.localStorage :=
                              delete "fs_token" (AuthProvider.localStorage s1) |}
                     end, logged (EFetch (me_request w2 (String a t))) w2))).
  { rewrite restore_run. cbn [AuthProvider.mount AuthProvider.localStorage].
    rewrite Hstored. reflexivity. }
  split; [unfold world_after; rewrite Hrun; reflexivity|].
  split; [reflexivity|].
  split.
  { subst s2. unfold after. rewrite Hrun. destruct (api_outcome me); reflexivity. }
  intros u Hu. subst s2. unfold after. rewrite Hrun, Hu. cbn [fst snd].
  split; [reflexivity|]. split; [reflexivity|]. exact Hstored.
Qed.

Lemma login_token_survives_reload_witness :
  api_outcome login_ok = Normal (AJson (JObj [("token", JStr "t0k3n"); ("user", alice)]))
  /\ AuthProvider.user
       (after (AuthProvider.restore me_ok)
          (AuthProvider.mount
             (AuthProvider.localStorage
                (after (AuthProvider.login "a@b.c" "pw" login_ok (Resolved tt)) signed_out fresh))) fresh)
     = AJson alice.
Proof.
  split; [reflexivity|].
  destruct (login_token_survives_reload "a@b.c" "pw" login_ok me_ok
              [("token", JStr "t0k3n"); ("user", alice)] "t0k3n" signed_out fresh fresh
              eq_refl eq_refl eq_refl) as (_ & _ & _ & _ & _ & _ & _ & Hu).
  exact (proj1 (Hu (AJson alice) eq_refl)).
Defined.

(** X13: with no token in local storage, or an empty one, the effect of
    the provider makes no request at all: it only ends the loading phase,
    and user, token and storage stay as they are. *)
Theorem restore_without_token :
  forall (me : FetchOutcome) (s : AuthProvider.State) (w : World),
    AuthProvider.localStorage s !! "fs_token" = None
    \/ AuthProvider.localStorage s !! "fs_token" = Some "" ->
    let s' := after (AuthProvider.restore me) s w in
    outcome (AuthProvider.restore me) s w = Normal tt
    /\ world_after (AuthProvider.restore me) s w = w
    /\ AuthProvider.loading s' = false
    /\ AuthProvider.user s' = AuthProvider.user s
    /\ AuthProvider.token s' = AuthProvider.token s
    /\ AuthProvider.localStorage s' = AuthProvider.localStorage s.
Proof.
  intros me s w Hnone. unfold outcome, world_after, after. rewrite restore_run.
  destruct Hnone as [H|H]; rewrite H; repeat split; reflexivity.
Qed.

Lemma restore_without_token_witness :
  AuthProvider.loading (after (AuthProvider.restore me_ok) signed_out fresh) = false
  /\ world_after (AuthProvider.restore me_ok) signed_out fresh = fresh.
Proof.
  destruct (restore_without_token me_ok signed_out fresh (or_introl eq_refl))
    as (_ & Hw & Hl & _).
  split; [exact Hl | exact Hw].
Defined.

(** X14: a stored token that [/api/me] does not accept is dropped.  The
    effect removes "fs_token" from local storage, sets the token to
    [null], leaves the user as it was and ends the loading phase without
    throwing; the next time the provider mounts over that storage it makes
    no request. *)
Theorem restore_drops_rejected_token :
  forall (me me' : FetchOutcome) (s : AuthProvider.State) (w w2 : World) (t : string) (e : Exn),
    AuthProvider.localStorage s !! "fs_token" = Some t ->
    truthy_str t = true ->
    api_outcome me = Throw e ->
    let s' := after (AuthProvider.restore me) s w in
    outcome (AuthProvider.restore me) s w = Normal tt
    /\ world_after (AuthProvider.restore me) s w = logged (EFetch (me_request w t)) w
    /\ AuthProvider.localStorage s' = delete "fs_token" (AuthProvider.localStorage s)
    /\ AuthProvider.localStorage s' !! "fs_token" = None
    /\ AuthProvider.token s' = JNull
    /\ AuthProvider.user s' = AuthProvider.user s
    /\ AuthProvider.loading s' = false
    /\ world_after (AuthProvider.restore me') (AuthProvider.mount (AuthProvider.localStorage s')) w2
       = w2.
Proof.
  intros me me' s w w2 t e Hstored Ht Hme s'.
  destruct t as [|a t]; [discriminate|].
  assert (Hs' : s' = {| AuthProvider.user := AuthProvider.user s; AuthProvider.token := JNull;
                        AuthProvider.loading := false;
                        AuthProvider.localStorage :=
                          delete "fs_token" (AuthProvider.localStorage s) |}).
  { subst s'. unfold after. rewrite restore_run, Hstored, Hme. reflexivity. }
  split; [unfold outcome; rewrite restore_run, Hstored; reflexivity|].
  split; [unfold world_after; rewrite restore_run, Hstored; reflexivity|].
  rewrite Hs'. cbn [AuthProvider.localStorage AuthProvider.token AuthProvider.user
                    AuthProvider.loading].
  split; [reflexivity|]. split; [apply lookup_delete_eq|].
  split; [reflexivity|]. split; [reflexivity|]. split; [reflexivity|].
  unfold world_after. rewrite restore_run. cbn [AuthProvider.mount AuthProvider.localStorage].
  rewrite lookup_delete_eq. reflexivity.
Qed.

Lemma restore_drops_rejected_token_witness :
  AuthProvider.localStorage returning !! "fs_token" = Some "st4le"
  /\ AuthProvider.localStorage
       (after (AuthProvider.restore (Responded internal_error)) returning fresh) !! "fs_token"
     = None
  /\ AuthProvider.token (after (AuthProvider.restore (Responded internal_error)) returning fresh)
     = JNull.
Proof.
  assert (Hst : AuthProvider.localStorage returning !! "fs_token" = Some "st4le")
    by (vm_compute; reflexivity).
  split; [exact Hst|].
  destruct (restore_drops_rejected_token (Responded internal_error) me_ok returning fresh fresh
              "st4le" (Error "Server Error (500)") Hst eq_refl eq_refl)
    as (_ & _ & _ & Hnone & Htok & _).
  split; [exact Hnone | exact Htok].
Defined.

Lemma logout_run s w :
  AuthProvider.logout (s, w)
  = (Normal tt,
     ({| AuthProvider.user := AJson JNull; AuthProvider.token := JNull;
         AuthProvider.loading := AuthProvider.loading s;
         AuthProvider.localStorage := delete "fs_token" (AuthProvider.localStorage s) |}, w)).
Proof. reflexivity. Qed.

(** X15: [logout] makes no request and forgets the session for good:
    user and token are [null] and "fs_token" is gone from local storage,
    so after a reload the provider asks the backend nothing and every
    guarded route, whatever roles it asks for, redirects to "/login". *)
Theorem logout_then_reload_redirects :
  forall (me : FetchOutcome) (s : AuthProvider.State) (w w2 : World)
         (roles : option (list string)),
    let s1 := after AuthProvider.logout s w in
    let s2 := after (AuthProvider.restore me) (AuthProvider.mount (AuthProvider.localStorage s1)) w2 in
    world_after AuthProvider.logout s w = w
    /\ AuthProvider.user s1 = AJson JNull
    /\ AuthProvider.token s1 = JNull
    /\ AuthProvider.localStorage s1 !! "fs_token" = None
    /\ world_after (AuthProvider.restore me) (AuthProvider.mount (AuthProvider.localStorage s1)) w2
       = w2
    /\ Protected s1 roles = (if AuthProvider.loading s
                             then FullScreenSpinner "Loading your session..."
                             else Navigate "/login")
    /\ Protected s2 roles = Navigate "/login".
Proof.
  intros me s w w2 roles s1 s2.
  subst s1 s2. unfold after, world_after. rewrite logout_run. cbn [fst snd].
  cbn [AuthProvider.user AuthProvider.token AuthProvider.localStorage].
  split; [reflexivity|]. split; [reflexivity|]. split; [reflexivity|].
  split; [apply lookup_delete_eq|].
  rewrite restore_run. cbn [AuthProvider.mount AuthProvider.localStorage].
  rewrite lookup_delete_eq. cbn [fst snd].
  split; [reflexivity|]. split; [|reflexivity].
  unfold Protected. cbn [AuthProvider.loading AuthProvider.user].
  destruct (AuthProvider.loading s); reflexivity.
Qed.

(** X16: [login] stores whatever [String(data.token)] is.  When the
    backend answers a login with an object that has no [token], the token
    state is [undefined] and local storage holds the text "undefined";
    after a reload the provider sends it to [/api/me] as
    "Bearer undefined". *)
Theorem login_without_token_stores_undefined :
  forall (email password : string) (net me : FetchOutcome) (fields : list (string * JsVal))
         (s : AuthProvider.State) (w w2 : World),
    api_outcome net = Normal (AJson (JObj fields)) ->
    get_field "token" fields = JUndefined ->
    let s1 := after (AuthProvider.login email password net (Resolved tt)) s w in
    outcome (AuthProvider.login email password net (Resolved tt)) s w = Normal tt
    /\ AuthProvider.token s1 = JUndefined
    /\ AuthProvider.localStorage s1 !! "fs_token" = Some "undefined"
    /\ world_after (AuthProvider.restore me) (AuthProvider.mount (AuthProvider.localStorage s1)) w2
       = logged (EFetch (me_request w2 "undefined")) w2
    /\ In ("Authorization", Some "Bearer undefined") (req_headers (me_request w2 "undefined")).
Proof.
  intros email password net me fields s w w2 Hnet Htok s1.
  assert (Hs1 : s1 = {| AuthProvider.user := AJson (get_field "user" fields);
                        AuthProvider.token := JUndefined;
                        AuthProvider.loading := AuthProvider.loading s;
                        AuthProvider.localStorage :=
                          <["fs_token" := "undefined"]> (AuthProvider.localStorage s) |}).
  { subst s1. unfold after. rewrite login_run, Hnet. cbn [prop]. rewrite Htok. reflexivity. }
  assert (Hstored : AuthProvider.localStorage s1 !! "fs_token" = Some "undefined").
  { rewrite Hs1. cbn [AuthProvider.localStorage]. apply lookup_insert_eq. }
  split; [unfold outcome; rewrite login_run, Hnet; cbn [prop]; rewrite Htok; reflexivity|].
  split; [rewrite Hs1; reflexivity|]. split; [exact Hstored|].
  split.
  - unfold world_after. rewrite restore_run. cbn [AuthProvider.mount AuthProvider.localStorage].
    rewrite Hstored. reflexivity.
  - simpl. right. left. reflexivity.
Qed.

Lemma login_without_token_stores_undefined_witness :
  AuthProvider.localStorage
    (after (AuthProvider.login "a@b.c" "pw" (Responded (json_response (JObj [("user", alice)])))
              (Resolved tt))
       signed_out fresh) !! "fs_token"
  = Some "undefined".
Proof.
  exact (proj1 (proj2 (proj2
    (login_without_token_stores_undefined "a@b.c" "pw"
       (Responded (json_response (JObj [("user", alice)]))) me_ok [("user", alice)]
       signed_out fresh fresh eq_refl eq_refl)))).
Defined.

(** * Route guard and login form *)

Lemma array_includes_spec roles v :
  array_includes roles v = true <-> exists r, v = JStr r /\ In r roles.
Proof.
  unfold array_includes. split.
  - destruct v; try discriminate. intros H. apply existsb_exists in H.
    destruct H as (r & Hin & Heq). apply String.eqb_eq in Heq. subst r.
    eexists. split; [reflexivity | assumption].
  - intros (r & -> & Hin). apply existsb_exists. exists r.
    split; [assumption | apply String.eqb_refl].
Qed.

(** X17: [Protected] renders its children exactly when loading is over,
    the user is truthy and, if roles are asked for, the role of the user
    is a string that is one of them; in every other case it renders the
    spinner or a redirect. *)
Theorem Protected_admits_iff :
  forall (s : AuthProvider.State) (roles : option (list string)),
    Protected s roles = Children
    <-> AuthProvider.loading s = false
        /\ truthy_api (AuthProvider.user s) = true
        /\ (forall rs, roles = Some rs ->
              exists r, optional_prop "role" (AuthProvider.user s) = JStr r /\ In r rs).
Proof.
  intros s roles. unfold Protected.
  destruct (AuthProvider.loading s); [split; [discriminate | intros (H & _); discriminate]|].
  destruct (truthy_api (AuthProvider.user s));
    [|split; [discriminate | intros (_ & H & _); discriminate]].
  cbn [negb]. destruct roles as [rs|].
  - destruct (array_includes rs (optional_prop "role" (AuthProvider.user s))) eqn:Hinc; cbn [negb].
    + split; [|reflexivity]. intros _. split; [reflexivity|]. split; [reflexivity|].
      intros rs' Hrs. inversion Hrs; subst rs'. apply array_includes_spec. exact Hinc.
    + split; [discriminate|]. intros (_ & _ & H).
      destruct (H rs eq_refl) as (r & Hr & Hin).
      assert (Htrue : array_includes rs (optional_prop "role" (AuthProvider.user s)) = true)
        by (apply array_includes_spec; exists r; split; assumption).
      rewrite Htrue in Hinc. discriminate.
  - split; [|reflexivity]. intros _. split; [reflexivity|]. split; [reflexivity|].
    intros rs Hrs. discriminate.
Qed.

(** X18: the Users link of the header and the Manage Users card are
    rendered for exactly the users that the guard of "/admin/users"
    (roles ["Admin"]) lets through, once loading is over: nobody sees an
    entry that would redirect, and nobody admitted lacks the entry. *)
Theorem admin_entry_matches_guard :
  forall s : AuthProvider.State,
    AuthProvider.loading s = false ->
    (shows_admin_entry s = true <-> Protected s (Some ["Admin"]) = Children).
Proof.
  intros s Hload. unfold shows_admin_entry, Protected, is_string. rewrite Hload.
  destruct (AuthProvider.user s) as [res|v|txt]; cbn [optional_prop truthy_api negb].
  - split; discriminate.
  - destruct v; cbn [truthy_val negb array_includes];
      try (split; discriminate);
      try (destruct b; split; discriminate);
      try (destruct n; split; discriminate);
      try (destruct s0; split; discriminate).
    destruct (get_field "role" fields) as [| | | |r| |]; cbn [array_includes negb];
      try (split; discriminate).
    cbn [existsb]. rewrite orb_false_r.
    destruct (String.eqb r "Admin"); cbn [negb]; split; (reflexivity || discriminate).
  - destruct (truthy_str txt); cbn [negb]; split; discriminate.
Qed.

Lemma admin_entry_matches_guard_witness :
  shows_admin_entry
    (after (AuthProvider.restore me_ok)
       (AuthProvider.mount {["fs_token" := "t0k3n"]}) fresh) = true
  <-> Protected
        (after (AuthProvider.restore me_ok)
           (AuthProvider.mount {["fs_token" := "t0k3n"]}) fresh) (Some ["Admin"]) = Children.
Proof.
  apply (admin_entry_matches_guard
           (after (AuthProvider.restore me_ok)
              (AuthProvider.mount {["fs_token" := "t0k3n"]}) fresh)).
  vm_compute. reflexivity.
Defined.

Lemma onSubmit_run net written s w :
  LoginPage.onSubmit net written (s, w)
  = (Normal tt,
     match AuthProvider.login (LoginPage.email s) (LoginPage.password s) net written
             (LoginPage.auth s, w) with
     | (Normal _, (a, w')) =>
         ({| LoginPage.auth := a; LoginPage.email := LoginPage.email s;
             LoginPage.password := LoginPage.password s; LoginPage.error := "";
             LoginPage.busy := false; LoginPage.visited := LoginPage.visited s ++ ["/"] |}, w')
     | (Throw _, (a, w')) =>
         ({| LoginPage.auth := a; LoginPage.email := LoginPage.email s;
             LoginPage.password := LoginPage.password s;
             LoginPage.error := "Invalid credentials. Please try again.";
             LoginPage.busy := false; LoginPage.visited := LoginPage.visited s |}, w')
     end).
Proof.
  unfold LoginPage.onSubmit, cbind, cfinally, ctry, zoom, get_state,
    LoginPage.setBusy, LoginPage.setError, LoginPage.nav, update.
  cbn [fst snd LoginPage.auth LoginPage.email LoginPage.password].
  destruct (AuthProvider.login (LoginPage.email s) (LoginPage.password s) net written
              (LoginPage.auth s, w))
    as [[[]|e] [a w']]; reflexivity.
Qed.

(** X19: submitting the login form never throws and always ends with the
    busy flag off; the provider is left as [login] left it.  The form
    navigates to "/" exactly when [login] resolved, and then shows no
    error.  When [login] rejected it does not navigate and shows "Invalid
    credentials. Please try again.": with the provider unchanged if the
    request failed, but with user and token already set (and nothing
    stored) if only the write to local storage was refused. *)
Theorem onSubmit_outcomes :
  forall (net : FetchOutcome) (written : Settled unit) (s : LoginPage.State) (w : World),
    let s' := after (LoginPage.onSubmit net written) s w in
    let signin := AuthProvider.login (LoginPage.email s) (LoginPage.password s) net written in
    outcome (LoginPage.onSubmit net written) s w = Normal tt
    /\ LoginPage.busy s' = false
    /\ LoginPage.auth s' = after signin (LoginPage.auth s) w
    /\ (outcome signin (LoginPage.auth s) w = Normal tt ->
        LoginPage.visited s' = LoginPage.visited s ++ ["/"] /\ LoginPage.error s' = "")
    /\ (forall e, outcome signin (LoginPage.auth s) w = Throw e ->
          LoginPage.visited s' = LoginPage.visited s
          /\ LoginPage.error s' = "Invalid credentials. Please try again.")
    /\ (forall e, api_outcome net = Throw e -> LoginPage.auth s' = LoginPage.auth s)
    /\ (forall data u t e,
          api_outcome net = Normal data ->
          prop "user" data = Normal u ->
          prop "token" data = Normal t ->
          written = Rejected e ->
          LoginPage.visited s' = LoginPage.visited s
          /\ LoginPage.error s' = "Invalid credentials. Please try again."
          /\ AuthProvider.user (LoginPage.auth s') = AJson u
          /\ AuthProvider.token (LoginPage.auth s') = t
          /\ AuthProvider.localStorage (LoginPage.auth s')
             = AuthProvider.localStorage (LoginPage.auth s)).
Proof.
  intros net written s w s' signin.
  split; [unfold outcome; rewrite onSubmit_run; reflexivity|].
  assert (Hs' : s' = fst (snd (LoginPage.onSubmit net written (s, w)))) by reflexivity.
  rewrite onSubmit_run in Hs'. cbn [snd] in Hs'. subst signin.
  unfold outcome, after. rewrite Hs'. clear Hs' s'.
  split.
  { destruct (AuthProvider.login _ _ net written (LoginPage.auth s, w)) as [[[]|e] [a w']];
      reflexivity. }
  split.
  { destruct (AuthProvider.login _ _ net written (LoginPage.auth s, w)) as [[[]|e] [a w']];
      reflexivity. }
  split.
  { destruct (AuthProvider.login _ _ net written (LoginPage.auth s, w)) as [[[]|e] [a w']];
      cbn [fst snd]; [intros _; split; reflexivity | discriminate]. }
  split.
  { intros e.
    destruct (AuthProvider.login _ _ net written (LoginPage.auth s, w)) as [[[]|e'] [a w']];
      cbn [fst snd]; [discriminate | intros _; split; reflexivity]. }
  split.
  - intros e He. rewrite login_run, He. reflexivity.
  - intros data u t e Hnet Hu Ht ->. rewrite login_run, Hnet, Hu, Ht. cbn [fst snd].
    repeat split; reflexivity.
Qed.

Lemma onSubmit_outcomes_witness :
  LoginPage.visited (after (LoginPage.onSubmit login_ok (Resolved tt)) login_form fresh) = ["/"]
  /\ LoginPage.error (after (LoginPage.onSubmit login_ok quota_exceeded) login_form fresh)
     = "Invalid credentials. Please try again."
  /\ AuthProvider.token
       (LoginPage.auth (after (LoginPage.onSubmit login_ok quota_exceeded) login_form fresh))
     = JStr "t0k3n".
Proof.
  destruct (onSubmit_outcomes login_ok (Resolved tt) login_form fresh) as (_ & _ & _ & Hok & _).
  destruct (onSubmit_outcomes login_ok quota_exceeded login_form fresh)
    as (_ & _ & _ & _ & _ & _ & Hq).
  destruct (Hq (AJson (JObj [("token", JStr "t0k3n"); ("user", alice)])) alice (JStr "t0k3n")
              (mkExn "QuotaExceededError" "The quota has been exceeded")
              eq_refl eq_refl eq_refl eq_refl) as (_ & He & _ & Ht & _).
  split; [exact (proj1 (Hok eq_refl))|]. split; [exact He | exact Ht].
Defined.

(** * The other pages *)

Lemma io_gets_token {S} (s : S) w : io (gets auth_token) (s, w) = (Normal (auth_token w), (s, w)).
Proof. reflexivity. Qed.

Lemma exportCsv_run net blob iso s w :
  QuickActions.exportCsv net blob iso (s, w)
  = (match api_outcome net with
     | Normal res =>
         match QuickActions.blob_of res blob with
         | Normal _ => Normal tt
         | Throw e => Throw e
         end
     | Throw e => Throw e
     end,
     ({| QuickActions.downloading := false;
         QuickActions.saved :=
           match api_outcome net with
           | Normal res =>
               match QuickActions.blob_of res blob with
               | Normal _ => QuickActions.saved s
                             ++ ["attendance_" +:+ substring 0 10 iso +:+ ".csv"]
               | Throw _ => QuickActions.saved s
               end
           | Throw _ => QuickActions.saved s
           end |},
      logged (EFetch (export_request w)) w)).
Proof.
  unfold QuickActions.exportCsv, cbind, cfinally, clift, QuickActions.setDownloading,
    QuickActions.click_download, update, export_request.
  cbn [fst snd]. rewrite io_gets_token, io_api_run.
  destruct (api_outcome net) as [res|e]; [|reflexivity].
  destruct (QuickActions.blob_of res blob) as [[]|e]; reflexivity.
Qed.

(** X20: [exportCsv] makes one request and always ends with the
    downloading flag off, also when it rejects (it has no [catch]).  A
    file is handed to the browser only when [api] resolved with the
    response itself (a text/csv answer) and its blob could be read; its
    name is "attendance_", the first ten characters of the ISO date and
    ".csv".  Any other successful answer (JSON, text) makes it reject
    with a TypeError, and a failed request with the error of [api]; no
    file is saved then. *)
Theorem exportCsv_outcomes :
  forall (net : FetchOutcome) (blob : Settled unit) (iso : string)
         (s : QuickActions.State) (w : World),
    let s' := after (QuickActions.exportCsv net blob iso) s w in
    let out := outcome (QuickActions.exportCsv net blob iso) s w in
    QuickActions.downloading s' = false
    /\ world_after (QuickActions.exportCsv net blob iso) s w = logged (EFetch (export_request w)) w
    /\ (forall res, api_outcome net = Normal (ACsv res) -> blob = Resolved tt ->
          out = Normal tt
          /\ QuickActions.saved s'
             = QuickActions.saved s ++ ["attendance_" +:+ substring 0 10 iso +:+ ".csv"])
    /\ (forall v, api_outcome net = Normal v -> (forall res, v <> ACsv res) ->
          QuickActions.saved s' = QuickActions.saved s
          /\ exists e, out = Throw e /\ name e = "TypeError")
    /\ (forall e, api_outcome net = Throw e ->
          out = Throw e /\ QuickActions.saved s' = QuickActions.saved s).
Proof.
  intros net blob iso s w s' out. subst s' out. unfold after, outcome, world_after.
  rewrite exportCsv_run. cbn [fst snd QuickActions.downloading QuickActions.saved].
  split; [reflexivity|]. split; [reflexivity|]. split; [|split].
  - intros res Hnet ->. rewrite Hnet. split; reflexivity.
  - intros v Hnet Hnot. rewrite Hnet.
    destruct v as [res|j|t]; [destruct (Hnot res eq_refl)| |].
    + destruct j; (split; [reflexivity | eexists; split; reflexivity]).
    + split; [reflexivity | eexists; split; reflexivity].
  - intros e Hnet. rewrite Hnet. split; reflexivity.
Qed.

Lemma exportCsv_outcomes_witness :
  api_outcome (Responded csv_report) = Normal (ACsv csv_report)
  /\ QuickActions.saved
       (after (QuickActions.exportCsv (Responded csv_report) (Resolved tt)
                 "2024-01-01T00:00:00.000Z") quiet fresh)
     = ["attendance_2024-01-01.csv"].
Proof.
  split; [reflexivity|].
  destruct (exportCsv_outcomes (Responded csv_report) (Resolved tt)
              "2024-01-01T00:00:00.000Z" quiet fresh) as (_ & _ & Hok & _).
  exact (proj2 (Hok csv_report eq_refl eq_refl)).
Defined.

Lemma refresh_run net items w :
  RecentEvents.refresh net (items, w)
  = (Normal tt,
     (match api_outcome net with
      | Normal d =>
          match RecentEvents.latest d with
          | Normal v => v
          | Throw _ => items
          end
      | Throw _ => items
      end,
      logged (EFetch (stats_request w "1d")) w)).
Proof.
  unfold RecentEvents.refresh, ctry, cbind, clift, update, cret, stats_request.
  rewrite io_gets_token, io_api_run.
  destruct (api_outcome net) as [d|e]; [|reflexivity].
  destruct (RecentEvents.latest d); reflexivity.
Qed.

Lemma slice_last_suffix {A} n (l : list A) :
  length (slice_last n l) = Nat.min n (length l)
  /\ take (length l - n) l ++ slice_last n l = l.
Proof.
  unfold slice_last. split; [rewrite length_drop; lia | apply take_drop].
Qed.

(** X21: when the statistics carry a [timeline] array, the recent events
    become its last five entries, in their order (all of them when there
    are five or fewer): never more than five, and always the end of the
    timeline. *)
Theorem refresh_keeps_last_five :
  forall (net : FetchOutcome) (fields : list (string * JsVal)) (events : list JsVal)
         (items : JsVal) (w : World),
    api_outcome net = Normal (AJson (JObj fields)) ->
    get_field "timeline" fields = JArr events ->
    exists shown older,
      after (RecentEvents.refresh net) items w = JArr shown
      /\ events = older ++ shown
      /\ length shown = Nat.min 5 (length events)
      /\ (length events <= 5 -> shown = events).
Proof.
  intros net fields events items w Hnet Htl.
  exists (slice_last 5 events), (take (length events - 5) events).
  destruct (slice_last_suffix 5 events) as (Hlen & Hsplit).
  split.
  { unfold after. rewrite refresh_run, Hnet. unfold RecentEvents.latest. cbn [prop and_then].
    rewrite Htl. reflexivity. }
  split; [symmetry; exact Hsplit|]. split; [exact Hlen|].
  intros Hshort. unfold slice_last. replace (length events - 5) with 0 by lia. reflexivity.
Qed.

Lemma refresh_keeps_last_five_witness :
  after (RecentEvents.refresh seven_events) (JArr []) fresh
  = JArr [event 3; event 4; event 5; event 6; event 7].
Proof.
  destruct (refresh_keeps_last_five seven_events
              [("timeline", JArr [event 1; event 2; event 3; event 4; event 5; event 6; event 7])]
              [event 1; event 2; event 3; event 4; event 5; event 6; event 7]
              (JArr []) fresh eq_refl eq_refl) as (shown & older & Hafter & _).
  rewrite Hafter. symmetry in Hafter. vm_compute in Hafter. inversion Hafter. reflexivity.
Defined.

(** X22: the effect of RecentEvents never throws.  A failed request, a
    [null] answer or a [timeline] that cannot be sliced leaves the items
    as they are; an answer without a [timeline] empties them. *)
Theorem refresh_swallows_failures :
  forall (net : FetchOutcome) (items : JsVal) (w : World),
    outcome (RecentEvents.refresh net) items w = Normal tt
    /\ world_after (RecentEvents.refresh net) items w = logged (EFetch (stats_request w "1d")) w
    /\ (forall e, api_outcome net = Throw e -> after (RecentEvents.refresh net) items w = items)
    /\ (api_outcome net = Normal (AJson JNull) -> after (RecentEvents.refresh net) items w = items)
    /\ (forall fields n,
          api_outcome net = Normal (AJson (JObj fields)) ->
          get_field "timeline" fields = JNum n ->
          after (RecentEvents.refresh net) items w = items)
    /\ (forall fields,
          api_outcome net = Normal (AJson (JObj fields)) ->
          get_field "timeline" fields = JUndefined ->
          after (RecentEvents.refresh net) items w = JArr []).
Proof.
  intros net items w. unfold outcome, world_after, after. rewrite refresh_run. cbn [fst snd].
  split; [reflexivity|]. split; [reflexivity|]. split; [|split; [|split]].
  - intros e ->. reflexivity.
  - intros ->. reflexivity.
  - intros fields n -> Htl. unfold RecentEvents.latest. cbn [prop and_then]. rewrite Htl.
    reflexivity.
  - intros fields -> Htl. unfold RecentEvents.latest. cbn [prop and_then]. rewrite Htl.
    reflexivity.
Qed.

Lemma load_run listed s w :
  AdminUsersPage.load listed (s, w)
  = (match api_outcome listed with Normal _ => Normal tt | Throw e => Throw e end,
     ({| AdminUsersPage.users := match api_outcome listed with
                                 | Normal l => l
                                 | Throw _ => AdminUsersPage.users s
                                 end;
         AdminUsersPage.busy := AdminUsersPage.busy s;
         AdminUsersPage.form := AdminUsersPage.form s |},
      logged (EFetch (users_request w)) w)).
Proof.
  unfold AdminUsersPage.load, cbind, AdminUsersPage.setUsers, update, users_request.
  rewrite io_gets_token, io_api_run.
  destruct (api_outcome listed); destruct s; reflexivity.
Qed.

Lemma removeUser_confirmed_run id deleted listed s w :
  AdminUsersPage.removeUser id true deleted listed (s, w)
  = match api_outcome deleted with
    | Normal _ => AdminUsersPage.load listed (s, logged (EFetch (delete_request w id)) w)
    | Throw e => (Throw e, (s, logged (EFetch (delete_request w id)) w))
    end.
Proof.
  unfold AdminUsersPage.removeUser, cbind at 1 2, delete_request. cbn [negb].
  rewrite io_gets_token, io_api_run.
  destruct (api_outcome deleted); reflexivity.
Qed.

(** X23: [removeUser] asks first.  Declined, it makes no request and
    changes nothing.  Confirmed, it sends a DELETE to "/api/users/"
    followed by the id; if that fails it rejects with that error, the list
    is neither reloaded nor changed; only after a successful delete does it
    fetch the list again, and the users become what that request answers. *)
Theorem removeUser_outcomes :
  forall (id : JsVal) (deleted listed : FetchOutcome) (s : AdminUsersPage.State) (w : World),
    AdminUsersPage.removeUser id false deleted listed (s, w) = (Normal tt, (s, w))
    /\ url (delete_request w id) = API_BASE w +:+ "/api/users/" +:+ js_string id
    /\ req_method (delete_request w id) = "DELETE"
    /\ (forall e, api_outcome deleted = Throw e ->
          outcome (AdminUsersPage.removeUser id true deleted listed) s w = Throw e
          /\ after (AdminUsersPage.removeUser id true deleted listed) s w = s
          /\ world_after (AdminUsersPage.removeUser id true deleted listed) s w
             = logged (EFetch (delete_request w id)) w)
    /\ (forall d, api_outcome deleted = Normal d ->
          trace (world_after (AdminUsersPage.removeUser id true deleted listed) s w)
          = trace w ++ [EFetch (delete_request w id); EFetch (users_request w)]
          /\ (forall l, api_outcome listed = Normal l ->
                outcome (AdminUsersPage.removeUser id true deleted listed) s w = Normal tt
                /\ AdminUsersPage.users
                     (after (AdminUsersPage.removeUser id true deleted listed) s w) = l)
          /\ (forall e, api_outcome listed = Throw e ->
                outcome (AdminUsersPage.removeUser id true deleted listed) s w = Throw e
                /\ after (AdminUsersPage.removeUser id true deleted listed) s w = s)).
Proof.
  intros id deleted listed s w.
  split; [reflexivity|]. split; [reflexivity|]. split; [reflexivity|].
  unfold outcome, after, world_after. rewrite removeUser_confirmed_run. split.
  - intros e ->. repeat split; reflexivity.
  - intros d ->. rewrite load_run. cbn [fst snd]. split.
    + unfold logged, users_request. destruct w; simpl. rewrite <- app_assoc. reflexivity.
    + split.
      * intros l ->. split; reflexivity.
      * intros e ->. split; [reflexivity | destruct s; reflexivity].
Qed.

Lemma removeUser_outcomes_witness :
  url (delete_request fresh (JNum 7)) = "http://127.0.0.1:8000/api/users/7"
  /\ after (AdminUsersPage.removeUser (JNum 7) true (Responded internal_error) me_ok)
       user_list fresh = user_list.
Proof.
  destruct (removeUser_outcomes (JNum 7) (Responded internal_error) me_ok user_list fresh)
    as (_ & _ & _ & Hfail & _).
  split; [reflexivity|].
  exact (proj1 (proj2 (Hfail (Error "Server Error (500)") eq_refl))).
Defined.

Lemma addUser_run created listed s w :
  AdminUsersPage.addUser created listed (s, w)
  = match api_outcome created with
    | Normal _ =>
        (match api_outcome listed with Normal _ => Normal tt | Throw e => Throw e end,
         ({| AdminUsersPage.users := match api_outcome listed with
                                     | Normal l => l
                                     | Throw _ => AdminUsersPage.users s
                                     end;
             AdminUsersPage.busy := false;
             AdminUsersPage.form := AdminUsersPage.blank |},
          logged (EFetch (users_request w))
            (logged (EFetch (create_request w (AdminUsersPage.form s))) w)))
    | Throw e =>
        (Throw e,
         ({| AdminUsersPage.users := AdminUsersPage.users s; AdminUsersPage.busy := false;
             AdminUsersPage.form := AdminUsersPage.form s |},
          logged (EFetch (create_request w (AdminUsersPage.form s))) w))
    end.
Proof.
  unfold AdminUsersPage.addUser, cbind at 1, cfinally, AdminUsersPage.setBusy, update at 1 2.
  cbn [fst snd]. unfold cbind at 1, get_state. cbn [fst snd]. unfold cbind at 1.
  rewrite io_gets_token. unfold cbind at 1. rewrite io_api_run. unfold create_request.
  cbn [AdminUsersPage.form].
  destruct (api_outcome created) as [d|e]; [|reflexivity].
  unfold cbind at 1, AdminUsersPage.setForm, update at 1. cbn [fst snd].
  rewrite load_run. destruct (api_outcome listed); reflexivity.
Qed.

(** X24: [addUser] always ends with the busy flag off, also when it
    rejects.  It posts the form; if that fails, the form keeps what was
    typed, the list is not fetched and stays as it is.  If it succeeds,
    the form is reset to empty name and email with role "Student" before
    the list is fetched again, so the reset holds even when that second
    request fails. *)
Theorem addUser_outcomes :
  forall (created listed : FetchOutcome) (s : AdminUsersPage.State) (w : World),
    let s' := after (AdminUsersPage.addUser created listed) s w in
    let w' := world_after (AdminUsersPage.addUser created listed) s w in
    AdminUsersPage.busy s' = false
    /\ req_body (create_request w (AdminUsersPage.form s))
       = Some (SendJson (AdminUsersPage.form_body (AdminUsersPage.form s)))
    /\ (forall e, api_outcome created = Throw e ->
          outcome (AdminUsersPage.addUser created listed) s w = Throw e
          /\ AdminUsersPage.form s' = AdminUsersPage.form s
          /\ AdminUsersPage.users s' = AdminUsersPage.users s
          /\ trace w' = trace w ++ [EFetch (create_request w (AdminUsersPage.form s))])
    /\ (forall d, api_outcome created = Normal d ->
          AdminUsersPage.form s' = AdminUsersPage.blank
          /\ trace w' = trace w ++ [EFetch (create_request w (AdminUsersPage.form s));
                                    EFetch (users_request w)]
          /\ (forall l, api_outcome listed = Normal l ->
                outcome (AdminUsersPage.addUser created listed) s w = Normal tt
                /\ AdminUsersPage.users s' = l)
          /\ (forall e, api_outcome listed = Throw e ->
                outcome (AdminUsersPage.addUser created listed) s w = Throw e
                /\ AdminUsersPage.users s' = AdminUsersPage.users s)).
Proof.
  intros created listed s w s' w'. subst s' w'. unfold after, world_after, outcome.
  rewrite addUser_run.
  split.
  { destruct (api_outcome created); reflexivity. }
  split; [reflexivity|]. split.
  - intros e ->. repeat split; reflexivity.
  - intros d ->. cbn [fst snd AdminUsersPage.form AdminUsersPage.users].
    split; [reflexivity|]. split.
    + unfold logged, users_request, create_request. destruct w; simpl.
      rewrite <- app_assoc. reflexivity.
    + split; [intros l -> | intros e ->]; split; reflexivity.
Qed.

Lemma addUser_outcomes_witness :
  AdminUsersPage.form (after (AdminUsersPage.addUser me_ok (Responded internal_error))
                         user_list fresh) = AdminUsersPage.blank
  /\ AdminUsersPage.busy (after (AdminUsersPage.addUser me_ok (Responded internal_error))
                            user_list fresh) = false.
Proof.
  destruct (addUser_outcomes me_ok (Responded internal_error) user_list fresh)
    as (Hb & _ & _ & Hok).
  split; [exact (proj1 (Hok (AJson alice) eq_refl)) | exact Hb].
Defined.

Lemma reload_run net s w :
  ReportsPage.reload net (s, w)
  = (match api_outcome net with Normal _ => Normal tt | Throw e => Throw e end,
     ({| ReportsPage.data := match api_outcome net with
                             | Normal d => d
                             | Throw _ => ReportsPage.data s
                             end;
         ReportsPage.range := ReportsPage.range s;
         ReportsPage.loading := false |},
      logged (EFetch (stats_request w (ReportsPage.range s))) w)).
Proof.
  unfold ReportsPage.reload, cbind, cfinally, get_state, ReportsPage.setLoading,
    ReportsPage.setData, update, stats_request.
  cbn [fst snd ReportsPage.range]. rewrite io_gets_token, io_api_run.
  destruct (api_outcome net); reflexivity.
Qed.

(** X25: the effect of ReportsPage asks for the statistics of the chosen
    range, once, and always ends the loading phase.  The data become what
    [api] resolved with; when the request fails the promise chain rejects
    (there is no [catch]) and the data shown before stay. *)
Theorem reload_outcomes :
  forall (net : FetchOutcome) (s : ReportsPage.State) (w : World),
    let s' := after (ReportsPage.reload net) s w in
    ReportsPage.loading s' = false
    /\ ReportsPage.range s' = ReportsPage.range s
    /\ world_after (ReportsPage.reload net) s w
       = logged (EFetch (stats_request w (ReportsPage.range s))) w
    /\ url (stats_request w (ReportsPage.range s))
       = API_BASE w +:+ "/api/stats?range=" +:+ ReportsPage.range s
    /\ (forall d, api_outcome net = Normal d ->
          outcome (ReportsPage.reload net) s w = Normal tt /\ ReportsPage.data s' = d)
    /\ (forall e, api_outcome net = Throw e ->
          outcome (ReportsPage.reload net) s w = Throw e
          /\ ReportsPage.data s' = ReportsPage.data s).
Proof.
  intros net s w s'. subst s'. unfold after, world_after, outcome. rewrite reload_run.
  cbn [fst snd ReportsPage.loading ReportsPage.range ReportsPage.data].
  split; [reflexivity|]. split; [reflexivity|]. split; [reflexivity|]. split; [reflexivity|].
  split; [intros d -> | intros e ->]; split; reflexivity.
Qed.

(** * Cleanup at the end of a session *)







